(** * Verification cog: member lifecycle, bulk-kick guard and reminders

    A shallow embedding of [bot/cogs/verification.py].

    - Discord objects are the snowflake identifiers they compare and hash by;
      the mutable attributes of a member (roles, bot flag, join date) live in
      the guild cache and are read through it, so a member object held in a
      set since classification shows its current roles when a request re-reads
      it later.
    - Coroutines are computations in a state-and-exception monad [M].  The
      state is the history of calls made to the outside world and the Redis
      task cache.  What the outside world answers (the guild cache, the clock,
      the status of an HTTP request, the reactions that arrive) is a function
      of the history, gathered in the record [Platform]; it can change at every
      call, and only there, as under cooperative scheduling.
    - [datetime] and [timedelta] are integers in microseconds.
    - The ratio that [_verify_kick] computes is kept as the exact rational
      and the threshold as the rational its literal denotes, where Python
      compares the correctly rounded binary64 quotient with the binary64
      threshold.  Rounding is monotone, so the two tests can differ only for
      a quotient within half a unit in the last place of the threshold; with
      the default 0.01 that takes a guild of more than 10^16 members.
    - The listeners and the commands are computations in a second monad [F],
      over the history of what they have done ([Action], which takes in
      [Call]) and the same task cache; the outside world answers them through
      the record [Frontend].  The author of a message is a member of the
      guild, whose attributes are read in the cache.  The checks that the
      decorators attach to a command run in the framework before its body and
      are not part of it; [without_role_check] is a parameter of [bot_check].
    - [log.*] statements are left out. *)

From stdpp Require Import base list strings pretty gmap.
From Stdlib Require Import ZArith QArith Qminmax Lia.

Local Close Scope Q_scope.
Local Open Scope Z_scope.

Set Warnings "-clear-no-such-hyp".

(** ** Data *)

Definition Member := Z.
Definition Role := Z.
Definition Channel := Z.
Definition Message := Z.

(** The attributes of a [discord.Member] that the cog reads. *)
Record MemberState := {
  roles : list Role;
  bot : bool;
  joined_at : option Z;
}.

(** The cached guild: [members] is [Guild.members], [member] gives the
    attributes of a member object. *)
Record Guild := {
  members : list Member;
  member : Member → MemberState;
  guild_roles : list Role;
  default_role : Role;
  guild_channels : list Channel;
}.

Definition get_role (g : Guild) (role_id : Z) : option Role :=
  if decide (role_id ∈ guild_roles g) then Some role_id else None.

Definition get_channel (g : Guild) (channel_id : Z) : option Channel :=
  if decide (channel_id ∈ guild_channels g) then Some channel_id else None.

(** [Role.members]: the default role is held by everyone. *)
Definition role_members (g : Guild) (r : Role) : list Member :=
  if decide (r = default_role g) then members g
  else filter (λ m, r ∈ roles (member g m)) (members g).

(** [bot.constants], which is not part of this module. *)
Record Constants := {
  Guild_id : Z;
  Roles_unverified : Z;
  Roles_core_developers : Z;
  Channels_dev_core : Z;
  Channels_verification : Z;
  Emojis_incident_actioned : string;
  Emojis_incident_unactioned : string;
}.

Definition UNVERIFIED_AFTER : Z := 3.
Definition KICKED_AFTER : Z := 30.
Definition REMINDER_FREQUENCY : Z := 28.

(** The value of [KICK_CONFIRMATION_THRESHOLD] in the source; the functions
    below take the threshold as a parameter, since it is meant to be edited. *)
Definition default_KICK_CONFIRMATION_THRESHOLD : Q := 1 # 100.

(** [timedelta(days=d)] and [timedelta(hours=h)], in microseconds. *)
Definition timedelta_days (d : Z) : Z := d * 86400 * 1000000.
Definition timedelta_hours (h : Z) : Z := h * 3600 * 1000000.

(** [timedelta.total_seconds()]. *)
Definition total_seconds (td : Z) : Q := td # 1000000.

(** [discord.utils.snowflake_time]: the creation time carried by the upper
    bits of an identifier, in milliseconds after the Discord epoch. *)
Definition DISCORD_EPOCH : Z := 1420070400000.
Definition snowflake_time (id : Z) : Z := (Z.shiftr id 22 + DISCORD_EPOCH) * 1000.

Section Classifier.
Context (C : Constants).

Definition is_verified (g : Guild) (m : Member) : bool :=
  let unverified_roles : gset (option Role) :=
    {[ get_role g (Roles_unverified C); Some (default_role g) ]} in
  bool_decide
    (0 < size (list_to_set (Some <$> roles (member g m)) ∖ unverified_roles))%nat.

(** The loop body of [_check_members], for one member.  The join date is
    read only after the test that skips members without one. *)
Definition check_member (g : Guild) (unverified : option Role) (current_dt : Z)
    (acc : gset Member * gset Member) (m : Member) : gset Member * gset Member :=
  let '(for_role, for_kick) := acc in
  if is_verified g m || bot (member g m) || bool_decide (joined_at (member g m) = None)
  then acc
  else
    match joined_at (member g m) with
    | None => acc
    | Some joined =>
        let since_join := current_dt - joined in
        if bool_decide (since_join > timedelta_days KICKED_AFTER) then
          (for_role, {[ m ]} ∪ for_kick)
        else if bool_decide (since_join > timedelta_days UNVERIFIED_AFTER)
                && bool_decide (unverified ∉ Some <$> roles (member g m)) then
          ({[ m ]} ∪ for_role, for_kick)
        else acc
    end.

(** [_check_members] once the guild is available: a pass over the cache. *)
Definition check_members (g : Guild) (current_dt : Z) : gset Member * gset Member :=
  let unverified := get_role g (Roles_unverified C) in
  foldl (check_member g unverified current_dt) (∅, ∅) (members g).
End Classifier.

(** ** Effects *)

(** The exceptions the cog meets.  The HTTP client raises [HTTPException]
    with the response status; [discord.Forbidden] is its subclass for 403. *)
Inductive exn :=
  | HTTPException (status : Z)
  | TimeoutError
  | ZeroDivisionError
  | AttributeError.

Definition is_HTTPException (e : exn) : bool :=
  match e with HTTPException _ => true | _ => false end.

Definition is_Forbidden (e : exn) : bool :=
  match e with HTTPException status => bool_decide (status = 403) | _ => false end.

Inductive KickReport :=
  | NoUsersToKick
  | NotAuthorized (n : nat)
  | Kicked (n_kicks n : nat).

Inductive RoleReport :=
  | NoUsersForRole
  | Assigned (n_roles n : nat).

(** The texts the cog sends, by template. *)
Inductive Content :=
  | KickPrompt (n_members : Z) (percentage : Q)
  | KickAuthorized (n_members : Z)
  | KickDenied (n_members : Z)
  | KICKED_MESSAGE
  | REMINDER_MESSAGE.

(** Calls to the outside world; every one but [StatsIncr] is awaited. *)
Inductive Call :=
  | WaitUntilGuildAvailable
  | ChannelSend (channel : Channel) (content : Content)
  | AddReaction (message : Message) (emoji : string)
  | WaitForReactionAdd (timeout : Z)
  | ClearReactions (message : Message)
  | MessageEdit (message : Message) (content : Content)
  | MemberSend (m : Member) (content : Content)
  | MemberKick (m : Member)
  | MemberAddRoles (m : Member) (role : Role)
  | DeleteMessage (channel : Channel) (message : Message)
  | SendLogMessage (kick_report : KickReport) (role_report : RoleReport)
  | StatsIncr (key : string) (count : nat)
  | CacheGet (key : string)
  | CacheSet (key : string) (value : Z)
  | Sleep (secs : Q).

(** A [reaction_add] event dispatched while [wait_for] is pending; [arrival]
    is in seconds after the wait began. *)
Record ReactionAdd := {
  arrival : Q;
  reaction_message : Message;
  reaction_emoji : string;
  user_id : Z;
}.

(** The outside world, as a function of the calls made so far. *)
Record Platform := {
  guild_at : list Call → Guild;
  utcnow_at : list Call → Z;
  (** [None] when the request succeeds, the status of the error otherwise *)
  http_status : list Call → Call → option Z;
  (** the message a successful send returns *)
  sent_message : list Call → Message;
  (** the reactions that reach [wait_for], in order of arrival *)
  reaction_adds : list Call → list ReactionAdd;
}.

Record State := {
  trace : list Call;
  task_cache : gmap string Z;
}.

Inductive result (A : Type) :=
  | Ok (a : A)
  | Raise (e : exn).
Arguments Ok {A} a.
Arguments Raise {A} e.

Definition M (A : Type) : Type := State → result A * State.

#[export] Instance M_ret : MRet M := λ A a s, (Ok a, s).

#[export] Instance M_bind : MBind M := λ A B f m s,
  match m s with
  | (Ok a, s') => f a s'
  | (Raise e, s') => (Raise e, s')
  end.

Definition raise {A} (e : exn) : M A := λ s, (Raise e, s).

(** Reading an attribute of a value that may be [None]. *)
Definition attr {A} (o : option A) : M A :=
  match o with Some a => mret a | None => raise AttributeError end.

(** Run [m] and hand its outcome over as a value. *)
Definition catch {A} (m : M A) : M (result A) := λ s,
  let '(r, s') := m s in (Ok r, s').

(** [with suppress(...)]. *)
Definition suppress (suppressed : exn → bool) (m : M unit) : M unit := λ s,
  match m s with
  | (Raise e, s') => if suppressed e then (Ok (), s') else (Raise e, s')
  | r => r
  end.

(** [for x in l: body(x)]. *)
Fixpoint for_each {A} (l : list A) (body : A → M unit) : M unit :=
  match l with
  | [] => mret ()
  | x :: rest => body x;; for_each rest body
  end.

Definition Qlt_bool (x y : Q) : bool := negb (Qle_bool y x).

(** [a / b] on integers. *)
Definition true_div (a b : Z) : M Q :=
  if decide (b = 0) then raise ZeroDivisionError
  else mret (inject_Z a / inject_Z b)%Q.

Definition log_call (c : Call) (s : State) : State :=
  {| trace := trace s ++ [c]; task_cache := task_cache s |}.

(** [bot.wait_for("reaction_add", check=check, timeout=timeout)] over the
    reactions that arrive: the first one that passes [check] before the
    timeout, [asyncio.TimeoutError] when there is none. *)
Fixpoint first_reaction (check : ReactionAdd → bool) (timeout : Z)
    (events : list ReactionAdd) : result ReactionAdd :=
  match events with
  | [] => Raise TimeoutError
  | ev :: rest =>
      if Qle_bool (inject_Z timeout) (arrival ev) then Raise TimeoutError
      else if check ev then Ok ev
      else first_reaction check timeout rest
  end.

Section Cog.
Context (C : Constants) (P : Platform) (KICK_CONFIRMATION_THRESHOLD : Q).

(** An awaited call that cannot fail. *)
Definition perform (c : Call) : M unit := λ s, (Ok (), log_call c s).

(** An awaited request to the platform. *)
Definition request (c : Call) : M unit := λ s,
  match http_status P (trace s) c with
  | None => (Ok (), log_call c s)
  | Some status => (Raise (HTTPException status), log_call c s)
  end.

(** The live guild object [pydis], read now. *)
Definition pydis : M Guild := λ s, (Ok (guild_at P (trace s)), s).

Definition utcnow : M Z := λ s, (Ok (utcnow_at P (trace s)), s).

Definition returned_message : M Message := λ s, (Ok (sent_message P (trace s)), s).

Definition channel_send (channel : Channel) (content : Content) : M Message :=
  request (ChannelSend channel content);;
  returned_message.

Definition wait_for (check : ReactionAdd → bool) (timeout : Z) : M ReactionAdd := λ s,
  (first_reaction check timeout (reaction_adds P (trace s)),
   log_call (WaitForReactionAdd timeout) s).

Definition cache_get (key : string) : M (option Z) := λ s,
  (Ok (task_cache s !! key), log_call (CacheGet key) s).

Definition cache_set (key : string) (value : Z) : M unit := λ s,
  (Ok (), {| trace := trace s ++ [CacheSet key value];
             task_cache := <[key := value]> (task_cache s) |}).

(** *** Bulk-kick authorizer *)

Definition check (confirmation_msg : Message) (options : list string)
    (core_dev_ids : list Z) (ev : ReactionAdd) : bool :=
  bool_decide (reaction_message ev = confirmation_msg)
  && bool_decide (reaction_emoji ev ∈ options)
  && bool_decide (user_id ev ∈ core_dev_ids).

Definition _verify_kick (n_members : Z) : M bool :=
  perform WaitUntilGuildAvailable;;
  g ← pydis;
  percentage ← true_div n_members (Z.of_nat (length (members g)));
  if Qlt_bool percentage KICK_CONFIRMATION_THRESHOLD then mret true
  else
    core_devs ← attr (get_channel g (Channels_dev_core C));
    confirmation_msg ← channel_send core_devs (KickPrompt n_members percentage);
    let options := [Emojis_incident_actioned C; Emojis_incident_unactioned C] in
    for_each options (λ option, request (AddReaction confirmation_msg option));;
    g ← pydis;
    core_developers ← attr (get_role g (Roles_core_developers C));
    let core_dev_ids := role_members g core_developers in
    let timeout := 60 * 5 in
    answer ← catch (wait_for (check confirmation_msg options core_dev_ids) timeout);
    suppress is_HTTPException (request (ClearReactions confirmation_msg));;
    match answer with
    | Raise TimeoutError => mret false
    | Raise e => raise e
    | Ok choice =>
        let result := bool_decide (reaction_emoji choice = Emojis_incident_actioned C) in
        let result_msg :=
          if result then KickAuthorized n_members else KickDenied n_members in
        suppress is_HTTPException (request (MessageEdit confirmation_msg result_msg));;
        mret result
    end.

(** *** Batch request executor *)

Fixpoint send_requests_loop (coroutines : list (M unit)) (n_success : nat)
    (bad_statuses : gset Z) : M (nat * gset Z) :=
  match coroutines with
  | [] => mret (n_success, bad_statuses)
  | coro :: rest =>
      outcome ← catch coro;
      match outcome with
      | Raise (HTTPException status) =>
          send_requests_loop rest n_success ({[ status ]} ∪ bad_statuses)
      | Raise e => raise e
      | Ok _ => send_requests_loop rest (n_success + 1) bad_statuses
      end
  end.

Definition _send_requests (coroutines : list (M unit)) : M nat :=
  '(n_success, bad_statuses) ← send_requests_loop coroutines 0%nat ∅;
  mret n_success.

Definition kick_request (member_ : Member) : M unit :=
  g ← pydis;
  if is_verified C g member_ then mret ()
  else
    suppress is_Forbidden (request (MemberSend member_ KICKED_MESSAGE));;
    request (MemberKick member_).

Definition _kick_members (members : gset Member) : M nat :=
  let requests := kick_request <$> elements members in
  n_kicked ← _send_requests requests;
  perform (StatsIncr "verification.kicked" n_kicked);;
  mret n_kicked.

(** [add_roles] reads the identifier of the role it is given. *)
Definition role_request (member_ : Member) (role_ : option Role) : M unit :=
  g ← pydis;
  if is_verified C g member_ then mret ()
  else
    role_id ← attr role_;
    request (MemberAddRoles member_ role_id).

Definition _give_role (members : gset Member) (role : option Role) : M nat :=
  let requests := (λ member, role_request member role) <$> elements members in
  n_roles_added ← _send_requests requests;
  mret n_roles_added.

(** *** Membership classifier *)

Definition _check_members : M (gset Member * gset Member) :=
  perform WaitUntilGuildAvailable;;
  g ← pydis;
  current_dt ← utcnow;
  mret (check_members C g current_dt).

(** *** Lifecycle scheduler: one run *)

(** The block that computes [role_report]. *)
Definition role_report (for_role : gset Member) (unverified : option Role) : M RoleReport :=
  if decide (for_role = ∅) then
    attr unverified;;
    mret NoUsersForRole
  else
    n_roles ← _give_role for_role unverified;
    attr unverified;;
    mret (Assigned n_roles (size for_role)).

(** The block that computes [kick_report]. *)
Definition kick_report (for_kick : gset Member) : M KickReport :=
  if decide (for_kick = ∅) then mret NoUsersToKick
  else
    authorized ← _verify_kick (Z.of_nat (size for_kick));
    if negb authorized then mret (NotAuthorized (size for_kick))
    else
      n_kicks ← _kick_members for_kick;
      mret (Kicked n_kicks (size for_kick)).

Definition update_unverified_members : M unit :=
  perform WaitUntilGuildAvailable;;
  g ← pydis;
  let unverified := get_role g (Roles_unverified C) in
  '(for_role, for_kick) ← _check_members;
  role_report ← role_report for_role unverified;
  kick_report ← kick_report for_kick;
  request (SendLogMessage kick_report role_report).

(** *** Reminder scheduler *)

Definition ping_unverified : M unit :=
  perform WaitUntilGuildAvailable;;
  g ← pydis;
  let verification := get_channel g (Channels_verification C) in
  last_reminder ← cache_get "last_reminder";
  match last_reminder with
  | Some last =>
      verification_id ← attr verification;
      suppress is_HTTPException (request (DeleteMessage verification_id last))
  | None => mret ()
  end;;
  channel ← attr verification;
  new_reminder ← channel_send channel REMINDER_MESSAGE;
  cache_set "last_reminder" new_reminder.

Definition _before_first_ping : M unit :=
  last_reminder ← cache_get "last_reminder";
  match last_reminder with
  | None => mret ()
  | Some last =>
      now ← utcnow;
      let time_since := now - snowflake_time last in
      let to_sleep := timedelta_hours REMINDER_FREQUENCY - time_since in
      let secs := Qmax (total_seconds to_sleep) 0 in
      perform (Sleep secs)
  end.
End Cog.

(** ** Listeners and commands *)

(** The constants that only the listeners and the commands read. *)
Record CommandConstants := {
  Roles_verified : Z;
  Roles_announcements : Z;
  Channels_mod_alerts : Z;
  MODERATION_ROLES : list Z;
}.

Definition BOT_MESSAGE_DELETE_DELAY : Z := 10.

(** The text of [REMINDER_MESSAGE], which [on_message] compares with the
    content of a message. *)
Definition REMINDER_MESSAGE_text (C : Constants) : string :=
  "<@&" +:+ pretty (Roles_unverified C) +:+ ">

Welcome to Python Discord! Please read the documents mentioned above and type `!accept` to gain permissions to send messages in the community!

You will be kicked if you don't verify within `" +:+ pretty KICKED_AFTER +:+ "` days.".

(** A [discord.Message] as [on_message] receives it. *)
Record MessageEvent := {
  message_id : Message;
  message_channel : Channel;
  message_content : string;
  message_author : Member;
  message_mentions : list Member;
  message_role_mentions : list Role;
}.

(** A [commands.Context]: the message, where and by whom it was sent, and
    the name of the command it invokes, if any. *)
Record Ctx := {
  ctx_message : Message;
  ctx_channel : Channel;
  ctx_author : Member;
  ctx_command : option string;
}.

(** The two [tasks.Loop] objects of the cog. *)
Inductive Loop :=
  | UpdateUnverifiedMembers
  | PingUnverified.

(** What the listeners and commands send, by template. *)
Inductive Reply :=
  | ON_JOIN_MESSAGE
  | VERIFIED_MESSAGE
  | AcceptInstructions (author : Member)
  | AlreadySubscribed (author : Member)
  | Subscribed (author : Member)
  | AlreadyUnsubscribed (author : Member)
  | Unsubscribed (author : Member)
  | StatusEmbed (update_status ping_status : string)
  | DoneEmbed
  | TasksCanceledEmbed.

(** What the listeners and commands do: calls that the tasks make as well,
    and their own.  [LoopStart], [LoopCancel], [ModLogIgnore] and the
    [StatsIncr] call are not awaited. *)
Inductive Action :=
  | Core (c : Call)
  | LoopStart (l : Loop)
  | LoopCancel (l : Loop)
  | DirectMessage (m : Member) (text : Reply)
  | CtxSend (channel : Channel) (text : Reply) (delete_after : option Z)
  | DeleteAfter (channel : Channel) (message : Message) (delay : Z)
  | ModAlert (channel_id : Channel) (author : Member) (channel : Channel) (content : string)
  | GetContext (message : Message)
  | RemoveRoles (m : Member) (role : Role)
  | ModLogIgnore (message : Message).

(** The outside world of the listeners and commands, as a function of what
    they have done so far. *)
Record Frontend := {
  cached_guild : list Action → Guild;
  clock : list Action → Z;
  (** [None] when the request succeeds, the status of the error otherwise *)
  response : list Action → Action → option Z;
  (** [Loop.is_running()] *)
  is_running : list Action → Loop → bool;
  (** the name of the command that the framework finds in a message *)
  command_of : MessageEvent → option string;
}.

(** The history of a session and the Redis task cache. *)
Record Session := {
  actions : list Action;
  settings : gmap string Z;
}.

Definition F (A : Type) : Type := Session → result A * Session.

#[export] Instance F_ret : MRet F := λ A a s, (Ok a, s).

#[export] Instance F_bind : MBind F := λ A B f m s,
  match m s with
  | (Ok a, s') => f a s'
  | (Raise e, s') => (Raise e, s')
  end.

Definition log_action (a : Action) (s : Session) : Session :=
  {| actions := actions s ++ [a]; settings := settings s |}.

(** [with suppress(...)], for the computations of [F]. *)
Definition suppressing (suppressed : exn → bool) (m : F unit) : F unit := λ s,
  match m s with
  | (Raise e, s') => if suppressed e then (Ok (), s') else (Raise e, s')
  | r => r
  end.

(** [try: body; finally: cleanup]: the cleanup runs whatever came of the
    body; an exception of the cleanup replaces the outcome of the body. *)
Definition try_finally {A} (body : F A) (cleanup : F unit) : F A := λ s,
  let '(r, s1) := body s in
  match cleanup s1 with
  | (Ok _, s2) => (r, s2)
  | (Raise e, s2) => (Raise e, s2)
  end.

Definition is_NotFound (e : exn) : bool :=
  match e with HTTPException status => bool_decide (status = 404) | _ => false end.

(** The truth value of an [Optional[int]]. *)
Definition truthy (setting : option Z) : bool :=
  match setting with
  | Some n => negb (bool_decide (n = 0))
  | None => false
  end.

(** The truth value of a list. *)
Definition nonempty {A} (l : list A) : bool :=
  match l with [] => false | _ => true end.

Section Frontend.
Context (C : Constants) (K : CommandConstants) (W : Frontend).

(** Something done that cannot fail. *)
Definition act (a : Action) : F unit := λ s, (Ok (), log_action a s).

(** An awaited request to the platform. *)
Definition ask (a : Action) : F unit := λ s,
  match response W (actions s) a with
  | None => (Ok (), log_action a s)
  | Some status => (Raise (HTTPException status), log_action a s)
  end.

(** The attributes of a member object, read now. *)
Definition member_now (m : Member) : F MemberState := λ s,
  (Ok (member (cached_guild W (actions s)) m), s).

Definition datetime_utcnow : F Z := λ s, (Ok (clock W (actions s)), s).

Definition running (l : Loop) : F bool := λ s, (Ok (is_running W (actions s) l), s).

Definition settings_get (key : string) : F (option Z) := λ s,
  (Ok (settings s !! key), log_action (Core (CacheGet key)) s).

Definition settings_set (key : string) (value : Z) : F unit := λ s,
  (Ok (), {| actions := actions s ++ [Core (CacheSet key value)];
             settings := <[key := value]> (settings s) |}).

(** [bot.get_context(message)]. *)
Definition get_context (message : MessageEvent) : F Ctx :=
  act (GetContext (message_id message));;
  mret {| ctx_message := message_id message;
          ctx_channel := message_channel message;
          ctx_author := message_author message;
          ctx_command := command_of W message |}.

(** *** Task management *)

Definition maybe_start_tasks : F unit :=
  setting ← settings_get "tasks_running";
  if truthy setting then
    act (LoopStart UpdateUnverifiedMembers);;
    act (LoopStart PingUnverified)
  else mret ().

Definition cog_unload : F unit :=
  act (LoopCancel UpdateUnverifiedMembers);;
  act (LoopCancel PingUnverified).

Definition status_cmd (ctx : Ctx) : F unit :=
  update_running ← running UpdateUnverifiedMembers;
  let update_status :=
    if (update_running : bool)
    then Emojis_incident_actioned C +:+ " Member update task is running."
    else Emojis_incident_unactioned C +:+ " Member update task is **not** running." in
  let mention := "<@&" +:+ pretty (Roles_unverified C) +:+ ">" in
  ping_running ← running PingUnverified;
  let ping_status :=
    if (ping_running : bool)
    then Emojis_incident_actioned C +:+ " Ping " +:+ mention +:+ " is running."
    else Emojis_incident_unactioned C +:+ " Ping " +:+ mention +:+ " is **not** running." in
  ask (CtxSend (ctx_channel ctx) (StatusEmbed update_status ping_status) None).

Definition start_cmd (ctx : Ctx) : F unit :=
  update_running ← running UpdateUnverifiedMembers;
  (if negb update_running then act (LoopStart UpdateUnverifiedMembers) else mret ());;
  ping_running ← running PingUnverified;
  (if negb ping_running then act (LoopStart PingUnverified) else mret ());;
  settings_set "tasks_running" 1;;
  ask (CtxSend (ctx_channel ctx) DoneEmbed None).

Definition stop_cmd (ctx : Ctx) : F unit :=
  act (LoopCancel UpdateUnverifiedMembers);;
  act (LoopCancel PingUnverified);;
  settings_set "tasks_running" 0;;
  ask (CtxSend (ctx_channel ctx) TasksCanceledEmbed None).

(** *** Listeners *)

Definition on_member_join (guild_id : Z) (member : Member) : F unit :=
  if bool_decide (guild_id ≠ Guild_id C) then mret ()
  else suppressing is_Forbidden (ask (DirectMessage member ON_JOIN_MESSAGE)).

Definition on_message (message : MessageEvent) : F unit :=
  if bool_decide (message_channel message ≠ Channels_verification C) then mret ()
  else if bool_decide (message_content message = REMINDER_MESSAGE_text C) then mret ()
  else
    author ← member_now (message_author message);
    if bot author then
      ask (DeleteAfter (message_channel message) (message_id message)
             BOT_MESSAGE_DELETE_DELAY)
    else
      (if nonempty (message_mentions message) || nonempty (message_role_mentions message)
       then ask (ModAlert (Channels_mod_alerts K) (message_author message)
                   (message_channel message) (message_content message))
       else mret ());;
      ctx ← get_context message;
      if bool_decide (ctx_command ctx = Some "accept") then mret ()
      else
        author ← member_now (ctx_author ctx);
        if bool_decide (Roles_verified K ∈ roles author) then mret ()
        else
          ask (CtxSend (ctx_channel ctx) (AcceptInstructions (ctx_author ctx)) (Some 20));;
          suppressing is_NotFound
            (ask (Core (DeleteMessage (ctx_channel ctx) (ctx_message ctx)))).

(** *** Accept and subscribe commands *)

Definition _bump_verified_stats (verified_member : Member) : F unit :=
  attributes ← member_now verified_member;
  match joined_at attributes with
  | None => mret ()
  | Some joined =>
      utcnow ← datetime_utcnow;
      let category :=
        if bool_decide (utcnow - joined < timedelta_hours 24) then "accepted_on_day_one"
        else if bool_decide (Roles_unverified C ∉ roles attributes)
             then "accepted_before_unverified"
             else "accepted_after_unverified" in
      act (Core (StatsIncr ("verification." +:+ category) 1))
  end.

Definition accept_command (ctx : Ctx) : F unit :=
  ask (Core (MemberAddRoles (ctx_author ctx) (Roles_verified K)));;
  _bump_verified_stats (ctx_author ctx);;
  author ← member_now (ctx_author ctx);
  (if bool_decide (Roles_unverified C ∈ roles author)
   then ask (RemoveRoles (ctx_author ctx) (Roles_unverified C))
   else mret ());;
  try_finally
    (suppressing is_Forbidden (ask (DirectMessage (ctx_author ctx) VERIFIED_MESSAGE)))
    (suppressing is_NotFound
       (act (ModLogIgnore (ctx_message ctx));;
        ask (Core (DeleteMessage (ctx_channel ctx) (ctx_message ctx))))).

Definition subscribe_command (ctx : Ctx) : F unit :=
  author ← member_now (ctx_author ctx);
  let has_role := bool_decide (Roles_announcements K ∈ roles author) in
  if has_role then
    ask (CtxSend (ctx_channel ctx) (AlreadySubscribed (ctx_author ctx)) None)
  else
    ask (Core (MemberAddRoles (ctx_author ctx) (Roles_announcements K)));;
    ask (CtxSend (ctx_channel ctx) (Subscribed (ctx_author ctx)) None).

Definition unsubscribe_command (ctx : Ctx) : F unit :=
  author ← member_now (ctx_author ctx);
  let has_role := bool_decide (Roles_announcements K ∈ roles author) in
  if negb has_role then
    ask (CtxSend (ctx_channel ctx) (AlreadyUnsubscribed (ctx_author ctx)) None)
  else
    ask (RemoveRoles (ctx_author ctx) (Roles_announcements K));;
    ask (CtxSend (ctx_channel ctx) (Unsubscribed (ctx_author ctx)) None).

(** *** Global check *)

(** [without_role_check], of [bot.utils.checks], is a parameter. *)
Definition bot_check (without_role_check : Ctx → list Z → bool) (ctx : Ctx) : result bool :=
  if bool_decide (ctx_channel ctx = Channels_verification C)
     && without_role_check ctx (MODERATION_ROLES K)
  then
    match ctx_command ctx with
    | Some name => Ok (bool_decide (name = "accept"))
    | None => Raise AttributeError
    end
  else Ok true.
End Frontend.

(** ** Vocabulary of the statements *)

(** The calls made between two states of a run. *)
Definition new_calls (s s' : State) : list Call := drop (length (trace s)) (trace s').

Definition is_prompt (c : Call) : bool :=
  match c with ChannelSend _ (KickPrompt _ _) => true | _ => false end.

Definition is_kick (c : Call) : bool :=
  match c with MemberKick _ => true | _ => false end.

(** [emits Φ m]: whatever the state, [m] only appends calls to the history,
    all of them in [Φ]. *)
Definition emits {A} (Φ : Call → Prop) (m : M A) : Prop :=
  ∀ s, ∃ t, trace (snd (m s)) = trace s ++ t ∧ Forall Φ t.

(** The authorizer answers yes and has sent no prompt. *)
Definition auto_approved (C : Constants) (P : Platform) (threshold : Q) (n : Z)
    (s : State) : Prop :=
  let r := _verify_kick C P threshold n s in
  fst r = Ok true ∧ Forall (λ c, is_prompt c = false) (new_calls s (snd r)).

(** A reaction that answers the prompt [msg]: on that message, with one of the
    two options, by one of the [eligible] users. *)
Definition valid_response (C : Constants) (msg : Message) (eligible : list Z)
    (ev : ReactionAdd) : Prop :=
  reaction_message ev = msg
  ∧ (reaction_emoji ev = Emojis_incident_actioned C
     ∨ reaction_emoji ev = Emojis_incident_unactioned C)
  ∧ user_id ev ∈ eligible.

(** From [s] the authorizer has posted its prompt and starts to wait: the ratio
    is not below the threshold, the prompt [msg] was sent to the core
    developers' channel and both options were attached; [h] is the history at
    that point and [eligible] the holders of the core developers role then. *)
Definition prompt_posted (C : Constants) (P : Platform) (threshold : Q) (n : Z)
    (s : State) (msg : Message) (eligible : list Z) (h : list Call) : Prop :=
  let h1 := trace s ++ [WaitUntilGuildAvailable] in
  let g := guild_at P h1 in
  let len := Z.of_nat (length (members g)) in
  let prompt := ChannelSend (Channels_dev_core C) (KickPrompt n (inject_Z n / inject_Z len)) in
  len ≠ 0
  ∧ ¬ (inject_Z n / inject_Z len < threshold)%Q
  ∧ Channels_dev_core C ∈ guild_channels g
  ∧ http_status P h1 prompt = None
  ∧ msg = sent_message P (h1 ++ [prompt])
  ∧ http_status P (h1 ++ [prompt]) (AddReaction msg (Emojis_incident_actioned C)) = None
  ∧ http_status P (h1 ++ [prompt; AddReaction msg (Emojis_incident_actioned C)])
      (AddReaction msg (Emojis_incident_unactioned C)) = None
  ∧ h = h1 ++ [prompt; AddReaction msg (Emojis_incident_actioned C);
               AddReaction msg (Emojis_incident_unactioned C)]
  ∧ Roles_core_developers C ∈ guild_roles (guild_at P h)
  ∧ eligible = role_members (guild_at P h) (Roles_core_developers C).

(** The run of the lifecycle task from [s] comes to ask the authorizer: it
    found the members [for_kick] to kick, at least one, the role block
    returned [report], and [s2] is the state then. *)
Definition authorizer_asked (C : Constants) (P : Platform) (s : State)
    (for_kick : gset Member) (report : RoleReport) (s2 : State) : Prop :=
  let s0 := log_call WaitUntilGuildAvailable s in
  let unverified := get_role (guild_at P (trace s0)) (Roles_unverified C) in
  ∃ for_role s1,
    _check_members C P s0 = (Ok (for_role, for_kick), s1)
    ∧ role_report C P for_role unverified s1 = (Ok report, s2)
    ∧ for_kick ≠ ∅.

(** Every request run in turn, each from the state the one before it left,
    whatever came of it. *)
Fixpoint attempt_all (coroutines : list (M unit)) (s : State) : list (result unit) * State :=
  match coroutines with
  | [] => ([], s)
  | coro :: rest =>
      let '(r, s1) := coro s in
      let '(rs, s2) := attempt_all rest s1 in
      (r :: rs, s2)
  end.

Definition completed (r : result unit) : bool :=
  match r with Ok _ => true | Raise _ => false end.

Definition platform_failure (r : result unit) : bool :=
  match r with Raise (HTTPException _) => true | _ => false end.

(** What sends a member to [for_kick], and to [for_role]. *)
Definition kick_due (C : Constants) (g : Guild) (now : Z) (m : Member) : Prop :=
  is_verified C g m = false ∧ bot (member g m) = false
  ∧ ∃ joined, joined_at (member g m) = Some joined
      ∧ now - joined > timedelta_days KICKED_AFTER.

Definition role_due (C : Constants) (g : Guild) (now : Z) (m : Member) : Prop :=
  is_verified C g m = false ∧ bot (member g m) = false
  ∧ ∃ joined, joined_at (member g m) = Some joined
      ∧ timedelta_days UNVERIFIED_AFTER < now - joined
      ∧ now - joined ≤ timedelta_days KICKED_AFTER
      ∧ get_role g (Roles_unverified C) ∉ Some <$> roles (member g m).

(** ** Vocabulary of the further properties *)

Definition is_member_action (c : Call) : bool :=
  match c with
  | MemberSend _ _ | MemberKick _ | MemberAddRoles _ _ => true
  | _ => false
  end.

(** What a run may do to members: a direct message or a kick for a member of
    [for_kick] only, the role [unverified] for a member of [for_role] only. *)
Definition acts_within (for_role for_kick : gset Member) (unverified : option Role)
    (c : Call) : Prop :=
  match c with
  | MemberSend m _ | MemberKick m => m ∈ for_kick
  | MemberAddRoles m r => m ∈ for_role ∧ unverified = Some r
  | _ => True
  end.

(** [keeps_cache m]: whatever the state, [m] leaves the task cache as it
    found it. *)
Definition keeps_cache {A} (m : M A) : Prop :=
  ∀ s, task_cache (snd (m s)) = task_cache s.

(** The actions done between two states of a session. *)
Definition new_actions (s s' : Session) : list Action :=
  drop (length (actions s)) (actions s').

(** A new process: nothing done yet, and the task cache as Redis kept it. *)
Definition restart (s : Session) : Session :=
  {| actions := []; settings := settings s |}.

(** The counter for a member who joined at [joined], at the time [now] and
    with the roles [member_roles]. *)
Definition counted_as (C : Constants) (now joined : Z) (member_roles : list Role)
    (key : string) : Prop :=
  key = "verification.accepted_on_day_one" ∧ now - joined < timedelta_hours 24
  ∨ key = "verification.accepted_before_unverified"
    ∧ timedelta_hours 24 ≤ now - joined ∧ Roles_unverified C ∉ member_roles
  ∨ key = "verification.accepted_after_unverified"
    ∧ timedelta_hours 24 ≤ now - joined ∧ Roles_unverified C ∈ member_roles.

(** What [on_message] may do about [message]. *)
Definition message_action (K : CommandConstants) (W : Frontend) (message : MessageEvent)
    (a : Action) : Prop :=
  match a with
  | GetContext msg => msg = message_id message
  | ModAlert to author channel content =>
      to = Channels_mod_alerts K
      ∧ author = message_author message
      ∧ channel = message_channel message
      ∧ content = message_content message
      ∧ (message_mentions message ≠ [] ∨ message_role_mentions message ≠ [])
  | DeleteAfter channel msg delay =>
      channel = message_channel message ∧ msg = message_id message
      ∧ delay = BOT_MESSAGE_DELETE_DELAY
  | CtxSend channel text delete_after =>
      channel = message_channel message
      ∧ text = AcceptInstructions (message_author message)
      ∧ delete_after = Some 20
      ∧ command_of W message ≠ Some "accept"
  | Core (DeleteMessage channel msg) =>
      channel = message_channel message ∧ msg = message_id message
      ∧ command_of W message ≠ Some "accept"
  | _ => False
  end.

(** ** Sample environments *)

Definition demo_constants : Constants := {|
  Guild_id := 1;
  Roles_unverified := 10;
  Roles_core_developers := 20;
  Channels_dev_core := 100;
  Channels_verification := 101;
  Emojis_incident_actioned := "incident_actioned";
  Emojis_incident_unactioned := "incident_unactioned";
|}.

Definition microseconds_per_day : Z := 86400 * 1000000.

(** Five members, seen on day 32: 1 joined on day 0 and never verified, 2 and
    3 joined on day 28 (2 already has the warning role), 4 is a core
    developer, 5 is a bot. *)
Definition demo_member (m : Member) : MemberState :=
  if decide (m = 1) then {| roles := [1]; bot := false; joined_at := Some 0 |}
  else if decide (m = 2) then
    {| roles := [1; 10]; bot := false; joined_at := Some (28 * microseconds_per_day) |}
  else if decide (m = 3) then
    {| roles := [1]; bot := false; joined_at := Some (28 * microseconds_per_day) |}
  else if decide (m = 4) then {| roles := [1; 20]; bot := false; joined_at := Some 0 |}
  else {| roles := [1]; bot := true; joined_at := None |}.

Definition demo_guild : Guild := {|
  members := [1; 2; 3; 4; 5];
  member := demo_member;
  guild_roles := [1; 10; 20];
  default_role := 1;
  guild_channels := [100; 101];
|}.

(** Every request succeeds; an outsider approves after 5 seconds, then the core
    developer denies after 6. *)
Definition demo_platform : Platform := {|
  guild_at := λ _, demo_guild;
  utcnow_at := λ _, 32 * microseconds_per_day;
  http_status := λ _ _, None;
  sent_message := λ _, 777;
  reaction_adds := λ _,
    [ {| arrival := 5; reaction_message := 777;
         reaction_emoji := "incident_actioned"; user_id := 9 |};
      {| arrival := 6; reaction_message := 777;
         reaction_emoji := "incident_unactioned"; user_id := 4 |} ];
|}.

(** A guild of a thousand members. *)
Definition large_guild : Guild := {|
  members := Z.of_nat <$> seq 1 1000;
  member := λ _, {| roles := [1]; bot := false; joined_at := Some 0 |};
  guild_roles := [1; 10; 20];
  default_role := 1;
  guild_channels := [100; 101];
|}.

Definition large_platform : Platform := {|
  guild_at := λ _, large_guild;
  utcnow_at := λ _, 0;
  http_status := λ _ _, None;
  sent_message := λ _, 777;
  reaction_adds := λ _, [];
|}.

(** Kicking members 2, 5 and 7 fails with status 500. *)
Definition flaky_platform : Platform := {|
  guild_at := λ _, large_guild;
  utcnow_at := λ _, 0;
  http_status := λ _ c,
    match c with
    | MemberKick m => if bool_decide (m ∈ [2; 5; 7]) then Some 500 else None
    | _ => None
    end;
  sent_message := λ _, 777;
  reaction_adds := λ _, [];
|}.

(** The clock stands ten hours after the creation time of snowflake 0. *)
Definition restart_platform : Platform := {|
  guild_at := λ _, demo_guild;
  utcnow_at := λ _, snowflake_time 0 + timedelta_hours 10;
  http_status := λ _ _, None;
  sent_message := λ _, 777;
  reaction_adds := λ _, [];
|}.

Definition initial_state : State := {| trace := []; task_cache := ∅ |}.

Definition reminded_state : State :=
  {| trace := []; task_cache := {[ "last_reminder" := 0 ]} |}.

(** The states a run of the lifecycle task goes through on [demo_platform]:
    on entry, after the members are checked, after member 3 is given the
    unverified role, and after the authorizer has answered. *)
Definition demo_entered : State := log_call WaitUntilGuildAvailable initial_state.

Definition demo_checked : State := log_call WaitUntilGuildAvailable demo_entered.

Definition demo_role_given : State := log_call (MemberAddRoles 3 10) demo_checked.

Definition demo_answered : State :=
  snd (_verify_kick demo_constants demo_platform default_KICK_CONFIRMATION_THRESHOLD 1
         demo_role_given).

(** Ten kick requests, for members 1 to 10 of [large_guild]. *)
Definition demo_requests : list (M unit) :=
  kick_request demo_constants flaky_platform <$> [1; 2; 3; 4; 5; 6; 7; 8; 9; 10].

(** Member 3 of [demo_guild] once it has been given the unverified role. *)
Definition demo_guild_warned : Guild := {|
  members := [1; 2; 3; 4; 5];
  member := λ m, if decide (m = 3) then demo_member 2 else demo_member m;
  guild_roles := [1; 10; 20];
  default_role := 1;
  guild_channels := [100; 101];
|}.

(** A guild of a core developer and a bot. *)
Definition settled_platform : Platform := {|
  guild_at := λ _,
    {| members := [4; 5]; member := demo_member; guild_roles := [1; 10; 20];
       default_role := 1; guild_channels := [100; 101] |};
  utcnow_at := λ _, 32 * microseconds_per_day;
  http_status := λ _ _, None;
  sent_message := λ _, 777;
  reaction_adds := λ _, [];
|}.

(** [demo_guild] without the unverified role. *)
Definition roleless_platform : Platform := {|
  guild_at := λ _,
    {| members := [1; 2; 3; 4; 5]; member := demo_member; guild_roles := [1; 20];
       default_role := 1; guild_channels := [100; 101] |};
  utcnow_at := λ _, 32 * microseconds_per_day;
  http_status := λ _ _, None;
  sent_message := λ _, 777;
  reaction_adds := λ _, [];
|}.

(** The state after a first reminder run on [demo_platform]. *)
Definition demo_reminded : State :=
  snd (ping_unverified demo_constants demo_platform initial_state).

Definition demo_commands : CommandConstants := {|
  Roles_verified := 30;
  Roles_announcements := 40;
  Channels_mod_alerts := 102;
  MODERATION_ROLES := [50; 51];
|}.

(** Every request succeeds, no loop runs, and the only command the framework
    knows in a message is the accept command. *)
Definition demo_frontend : Frontend := {|
  cached_guild := λ _, demo_guild;
  clock := λ _, 32 * microseconds_per_day;
  response := λ _ _, None;
  is_running := λ _ _, false;
  command_of := λ message,
    if bool_decide (message_content message = "!accept") then Some "accept" else None;
|}.


Definition demo_accept_message : MessageEvent := {|
  message_id := 501;
  message_channel := 101;
  message_content := "!accept";
  message_author := 3;
  message_mentions := [];
  message_role_mentions := [];
|}.

Definition new_session : Session := {| actions := []; settings := ∅ |}.

(** ** Reasoning about computations *)

Lemma Qlt_bool_iff (x y : Q) : Qlt_bool x y = true ↔ (x < y)%Q.
Proof.
  unfold Qlt_bool. rewrite negb_true_iff, <- not_true_iff_false, Qle_bool_iff.
  split; [apply Qnot_le_lt | apply Qlt_not_le].
Qed.

Lemma Qle_bool_false (x y : Q) : Qle_bool x y = false ↔ (y < x)%Q.
Proof.
  rewrite <- not_true_iff_false, Qle_bool_iff.
  split; [apply Qnot_le_lt | apply Qlt_not_le].
Qed.

Lemma ratio_nonneg (n g : Z) : 0 ≤ n → 0 < g → (0 <= inject_Z n / inject_Z g)%Q.
Proof.
  intros Hn Hg. apply Qle_shift_div_l.
  - unfold Qlt, inject_Z. simpl. lia.
  - unfold Qle, inject_Z. simpl. lia.
Qed.

Lemma bind_eq {A B} (m : M A) (f : A → M B) s :
  (m ≫= f) s = match m s with (Ok a, s') => f a s' | (Raise e, s') => (Raise e, s') end.
Proof. reflexivity. Qed.

Lemma new_calls_app s s' t : trace s' = trace s ++ t → new_calls s s' = t.
Proof. unfold new_calls. intros ->. by rewrite drop_app_length. Qed.

Lemma not_kick_Forall t :
  Forall (λ c, is_kick c = false) t → ∀ m, MemberKick m ∉ t.
Proof.
  intros Hall m Hin. rewrite Forall_forall in Hall. by specialize (Hall _ Hin).
Qed.

(** Unfold the primitives of [M], to run a computation symbolically. *)
Ltac unfold_M :=
  unfold channel_send in *;
  unfold perform, request, pydis, utcnow, returned_message, wait_for,
    cache_get, cache_set, catch, suppress, attr, raise, true_div in *;
  unfold mbind, M_bind, mret, M_ret in *.

(** Bring the histories in the goal and the hypotheses to the form
    [trace s ++ [c1; ...; cn]]. *)
Ltac flatten_trace :=
  unfold log_call in *; cbn [trace] in *; rewrite <- ?app_assoc in *; cbn [app] in *.

Section Emits.
Context (P : Platform) (Φ : Call → Prop).

Lemma emits_ret {A} (a : A) : emits Φ (mret a).
Proof. intros s. exists []. by rewrite app_nil_r. Qed.

Lemma emits_raise {A} e : emits Φ (raise e : M A).
Proof. intros s. exists []. by rewrite app_nil_r. Qed.

Lemma emits_bind {A B} (m : M A) (f : A → M B) :
  emits Φ m → (∀ a, emits Φ (f a)) → emits Φ (m ≫= f).
Proof.
  intros Hm Hf s. rewrite bind_eq. destruct (Hm s) as (t & Ht & HΦ).
  destruct (m s) as [[a|e] s1]; simpl in *; [|eauto].
  destruct (Hf a s1) as (t' & Ht' & HΦ'). exists (t ++ t').
  rewrite Ht', Ht, app_assoc. split; [done|]. by apply Forall_app.
Qed.

Lemma emits_attr {A} (o : option A) : emits Φ (attr o).
Proof. destruct o; [apply emits_ret | apply emits_raise]. Qed.

Lemma emits_catch {A} (m : M A) : emits Φ m → emits Φ (catch m).
Proof. intros Hm s. unfold catch. specialize (Hm s). by destruct (m s). Qed.

Lemma emits_suppress f m : emits Φ m → emits Φ (suppress f m).
Proof.
  intros Hm s. unfold suppress. specialize (Hm s).
  destruct (m s) as [[[]|e] s1]; [done|]. by destruct (f e).
Qed.

Lemma emits_for_each {A} (l : list A) body :
  (∀ x, emits Φ (body x)) → emits Φ (for_each l body).
Proof.
  intros Hbody. induction l as [|x l IH]; [apply emits_ret|].
  simpl. apply emits_bind; auto.
Qed.

Lemma emits_true_div a b : emits Φ (true_div a b).
Proof. unfold true_div. case_decide; [apply emits_raise | apply emits_ret]. Qed.

Lemma emits_perform c : Φ c → emits Φ (perform c).
Proof. intros Hc s. exists [c]. split; [done|]. by constructor. Qed.

Lemma emits_request c : Φ c → emits Φ (request P c).
Proof.
  intros Hc s. exists [c]. unfold request.
  split; [by destruct (http_status _ _ _)|]. by constructor.
Qed.

Lemma emits_pydis : emits Φ (pydis P).
Proof. intros s. exists []. by rewrite app_nil_r. Qed.

Lemma emits_utcnow : emits Φ (utcnow P).
Proof. intros s. exists []. by rewrite app_nil_r. Qed.

Lemma emits_returned_message : emits Φ (returned_message P).
Proof. intros s. exists []. by rewrite app_nil_r. Qed.

Lemma emits_channel_send ch content :
  Φ (ChannelSend ch content) → emits Φ (channel_send P ch content).
Proof.
  intros Hc. apply emits_bind; [by apply emits_request|].
  intros _. apply emits_returned_message.
Qed.

Lemma emits_wait_for chk timeout :
  Φ (WaitForReactionAdd timeout) → emits Φ (wait_for P chk timeout).
Proof.
  intros Hc s. exists [WaitForReactionAdd timeout]. split; [done|]. by constructor.
Qed.

Lemma emits_extend {A} (m : M A) s r s' :
  emits Φ m → m s = (r, s') → ∃ t, trace s' = trace s ++ t ∧ Forall Φ t.
Proof. intros Hm Hrun. specialize (Hm s). by rewrite Hrun in Hm. Qed.
End Emits.

Ltac emits_step :=
  match goal with
  | |- emits _ (mbind _ _) => apply emits_bind; [|intros ?]
  | |- emits _ (mret _) => apply emits_ret
  | |- emits _ (raise _) => apply emits_raise
  | |- emits _ (attr _) => apply emits_attr
  | |- emits _ (catch _) => apply emits_catch
  | |- emits _ (suppress _ _) => apply emits_suppress
  | |- emits _ (for_each _ _) => apply emits_for_each; intros ?
  | |- emits _ (true_div _ _) => apply emits_true_div
  | |- emits _ (perform _) => apply emits_perform
  | |- emits _ (request _ _) => apply emits_request
  | |- emits _ (pydis _) => apply emits_pydis
  | |- emits _ (utcnow _) => apply emits_utcnow
  | |- emits _ (channel_send _ _ _) => apply emits_channel_send
  | |- emits _ (wait_for _ _ _) => apply emits_wait_for
  | |- emits _ (if ?b then _ else _) => destruct b
  | |- emits _ (match ?x with _ => _ end) => destruct x
  end.

(** ** The wait for a reaction *)

Lemma first_reaction_raise chk timeout events e :
  first_reaction chk timeout events = Raise e → e = TimeoutError.
Proof.
  induction events as [|ev rest IH]; simpl; [congruence|].
  repeat case_match; auto; congruence.
Qed.

Lemma first_reaction_first chk (timeout : Z) pre ev post :
  Forall (λ e, (arrival e <= arrival ev)%Q ∧ chk e = false) pre →
  chk ev = true → (arrival ev < inject_Z timeout)%Q →
  first_reaction chk timeout (pre ++ ev :: post) = Ok ev.
Proof.
  intros Hpre Hev Hin. induction Hpre as [|e pre [Hle Hno] _ IH]; simpl.
  - apply Qle_bool_false in Hin. by rewrite Hin, Hev.
  - assert (Qle_bool (inject_Z timeout) (arrival e) = false) as ->.
    { apply Qle_bool_false. by eapply Qle_lt_trans. }
    by rewrite Hno.
Qed.

Lemma first_reaction_none chk (timeout : Z) events :
  (∀ ev, ev ∈ events → (arrival ev < inject_Z timeout)%Q → chk ev = false) →
  first_reaction chk timeout events = Raise TimeoutError.
Proof.
  induction events as [|e rest IH]; intros Hno; simpl; [done|].
  destruct (Qle_bool _ _) eqn:Hlate; [done|].
  rewrite (Hno e); [|by left|by apply Qle_bool_false].
  apply IH. intros ev Hev. apply Hno. by right.
Qed.

Lemma check_valid C msg eligible ev :
  check msg [Emojis_incident_actioned C; Emojis_incident_unactioned C] eligible ev = true
  ↔ valid_response C msg eligible ev.
Proof.
  unfold check, valid_response.
  rewrite !andb_true_iff, !bool_decide_eq_true, !elem_of_cons, elem_of_nil. tauto.
Qed.

(** ** Bulk-kick authorizer *)

Section Authorizer.
Context (C : Constants) (P : Platform) (threshold : Q).

Lemma emits_verify_kick Φ n :
  (∀ c, is_kick c = false → Φ c) → emits Φ (_verify_kick C P threshold n).
Proof.
  intros HΦ. unfold _verify_kick. repeat emits_step; by apply HΦ.
Qed.

Lemma verify_kick_below n s :
  let len := Z.of_nat (length (members (guild_at P (trace s ++ [WaitUntilGuildAvailable])))) in
  len ≠ 0 → Qlt_bool (inject_Z n / inject_Z len) threshold = true →
  _verify_kick C P threshold n s = (Ok true, log_call WaitUntilGuildAvailable s).
Proof.
  intros len Hlen Hlt. unfold _verify_kick. unfold_M. simpl.
  fold len. case_decide; [done|]. by rewrite Hlt.
Qed.

Lemma verify_kick_above n s :
  let len := Z.of_nat (length (members (guild_at P (trace s ++ [WaitUntilGuildAvailable])))) in
  len ≠ 0 → Qlt_bool (inject_Z n / inject_Z len) threshold = false →
  ¬ auto_approved C P threshold n s.
Proof.
  intros len Hlen Hlt [Hr Hno]. revert Hr Hno.
  unfold _verify_kick. simpl for_each. unfold_M. simpl.
  fold len. case_decide; [done|]. rewrite Hlt.
  unfold new_calls.
  repeat (case_match; simplify_eq/=; try done).
  all: intros _; flatten_trace; rewrite drop_app_length.
  all: rewrite !Forall_cons; simpl; intros (_ & ? & _); done.
Qed.

Lemma verify_kick_after_prompt n s msg eligible h :
  prompt_posted C P threshold n s msg eligible h →
  fst (_verify_kick C P threshold n s) =
    match first_reaction
            (check msg [Emojis_incident_actioned C; Emojis_incident_unactioned C] eligible)
            (60 * 5) (reaction_adds P h) with
    | Ok choice => Ok (bool_decide (reaction_emoji choice = Emojis_incident_actioned C))
    | Raise _ => Ok false
    end.
Proof.
  intros (Hlen & Hge & Hch & Hsend & Hmsg & Hyes & Hno & Hh & Hrole & Hel).
  unfold _verify_kick. simpl for_each. unfold_M. simpl. flatten_trace.
  case_decide; [done|].
  assert (Qlt_bool (inject_Z n / inject_Z (Z.of_nat (length (members
    (guild_at P (trace s ++ [WaitUntilGuildAvailable])))))) threshold = false) as ->.
  { apply not_true_iff_false. by rewrite Qlt_bool_iff. }
  unfold get_channel. rewrite decide_True by done. simpl.
  rewrite Hsend. simpl. flatten_trace. rewrite <- Hmsg, Hyes. simpl. flatten_trace.
  rewrite Hno. simpl. flatten_trace. rewrite <- Hh.
  unfold get_role. rewrite decide_True by done. rewrite <- Hel.
  destruct (first_reaction _ _ _) as [choice|e] eqn:Hfirst; simpl.
  - repeat (case_match; simplify_eq/=; try done).
  - apply first_reaction_raise in Hfirst as ->.
    repeat (case_match; simplify_eq/=; try done).
Qed.

(** C1.  For a kick count [n >= 0] and a guild of [g > 0] members, the
    authorizer answers yes without sending a prompt exactly when
    [n / g] is below the threshold.  With 5 members to kick out of 1000
    and the default threshold it approves on its own; with a threshold of
    zero it never does. *)
Theorem verify_kick_auto_approval n s :
  let g := Z.of_nat (length (members (guild_at P (trace s ++ [WaitUntilGuildAvailable])))) in
  0 ≤ n → 0 < g →
  (auto_approved C P threshold n s ↔ (inject_Z n / inject_Z g < threshold)%Q)
  ∧ (n = 5 → g = 1000 → auto_approved C P default_KICK_CONFIRMATION_THRESHOLD n s)
  ∧ ((threshold == 0)%Q → ¬ auto_approved C P threshold n s).
Proof.
  intros g Hn Hg.
  assert (Hbelow : ∀ threshold', Qlt_bool (inject_Z n / inject_Z g) threshold' = true →
                     auto_approved C P threshold' n s).
  { intros threshold' Hlt. unfold auto_approved.
    unfold _verify_kick. unfold_M. simpl. fold g.
    case_decide; [lia|]. rewrite Hlt. simpl.
    split; [done|]. rewrite (new_calls_app _ _ [WaitUntilGuildAvailable]) by done.
    by constructor. }
  split; [|split].
  - rewrite <- Qlt_bool_iff. split; [|apply Hbelow].
    intros Hauto. destruct (Qlt_bool _ _) eqn:Hlt; [done|].
    exfalso. revert Hauto. apply verify_kick_above; fold g; [lia|done].
  - intros -> Hg'. apply Hbelow. by rewrite Hg'.
  - intros Hzero. apply verify_kick_above; fold g; [lia|].
    apply not_true_iff_false. rewrite Qlt_bool_iff, Hzero.
    apply Qle_not_lt. by apply ratio_nonneg.
Qed.

(** C9.  The ratio is computed without a guard on the member count: the
    authorizer raises [ZeroDivisionError] exactly when the guild has no
    member, and on no other path. *)
Theorem verify_kick_zero_division n s :
  fst (_verify_kick C P threshold n s) = Raise ZeroDivisionError
  ↔ length (members (guild_at P (trace s ++ [WaitUntilGuildAvailable]))) = 0%nat.
Proof.
  unfold _verify_kick. simpl for_each. unfold_M. simpl.
  split.
  - intros H. destruct (length _); [done|]. exfalso. revert H.
    case_decide; [lia|].
    repeat (case_match; simplify_eq/=; try done).
    all: intros ?; simplify_eq.
    all: by match goal with H : first_reaction _ _ _ = Raise _ |- _ =>
             apply first_reaction_raise in H end.
  - intros ->. done.
Qed.

(** C2.  Once the prompt is posted, the answer is decided by the first
    reaction that arrives within 300 seconds on the prompt, with one of the
    two options, from one of the recorded core developers: the authorizer
    returns whether that reaction is the approve option, the reactions
    before it being passed over; when no such reaction arrives in time it
    returns false. *)
Theorem verify_kick_prompt_outcome n s msg eligible h :
  prompt_posted C P threshold n s msg eligible h →
  let events := reaction_adds P h in
  let outcome := fst (_verify_kick C P threshold n s) in
  (∀ pre ev post,
     events = pre ++ ev :: post →
     Forall (λ e, (arrival e <= arrival ev)%Q ∧ ¬ valid_response C msg eligible e) pre →
     valid_response C msg eligible ev →
     (arrival ev < 300)%Q →
     outcome = Ok (bool_decide (reaction_emoji ev = Emojis_incident_actioned C)))
  ∧ ((∀ ev, ev ∈ events → (arrival ev < 300)%Q → ¬ valid_response C msg eligible ev) →
     outcome = Ok false).
Proof.
  intros Hposted events outcome. unfold outcome.
  rewrite (verify_kick_after_prompt _ _ _ _ _ Hposted). fold events. split.
  - intros pre ev post -> Hpre Hev Hin.
    rewrite first_reaction_first; [done| |by apply check_valid|done].
    eapply Forall_impl; [exact Hpre|]. intros e [Hle Hno]. split; [done|].
    apply not_true_iff_false. by rewrite check_valid.
  - intros Hnone. rewrite first_reaction_none; [done|].
    intros ev Hev Hin. apply not_true_iff_false. rewrite check_valid. by apply Hnone.
Qed.
End Authorizer.

Lemma verify_kick_auto_approval_witness :
  0 ≤ 5
  ∧ 0 < Z.of_nat (length (members (guild_at large_platform
                     (trace initial_state ++ [WaitUntilGuildAvailable]))))
  ∧ auto_approved demo_constants large_platform default_KICK_CONFIRMATION_THRESHOLD 5
      initial_state.
Proof.
  split; [lia|]. split; [vm_compute; reflexivity|].
  apply (verify_kick_auto_approval demo_constants large_platform
           default_KICK_CONFIRMATION_THRESHOLD 5 initial_state);
    [lia | vm_compute; reflexivity | reflexivity | vm_compute; reflexivity].
Defined.

Lemma verify_kick_prompt_outcome_witness :
  prompt_posted demo_constants demo_platform default_KICK_CONFIRMATION_THRESHOLD 1
    initial_state 777 [4]
    [WaitUntilGuildAvailable; ChannelSend 100 (KickPrompt 1 (1 # 5));
     AddReaction 777 "incident_actioned"; AddReaction 777 "incident_unactioned"]
  ∧ fst (_verify_kick demo_constants demo_platform default_KICK_CONFIRMATION_THRESHOLD 1
           initial_state) = Ok false.
Proof.
  assert (Hposted : prompt_posted demo_constants demo_platform
            default_KICK_CONFIRMATION_THRESHOLD 1 initial_state 777 [4]
            [WaitUntilGuildAvailable; ChannelSend 100 (KickPrompt 1 (1 # 5));
             AddReaction 777 "incident_actioned"; AddReaction 777 "incident_unactioned"]).
  { repeat split; try reflexivity; try (vm_compute; congruence).
    - apply list_elem_of_In. vm_compute. tauto.
    - apply list_elem_of_In. vm_compute. tauto. }
  split; [exact Hposted|].
  apply (proj1 (verify_kick_prompt_outcome demo_constants demo_platform
                  default_KICK_CONFIRMATION_THRESHOLD 1 initial_state 777 [4] _ Hposted)
           [ {| arrival := 5; reaction_message := 777;
                reaction_emoji := "incident_actioned"; user_id := 9 |} ]
           {| arrival := 6; reaction_message := 777;
              reaction_emoji := "incident_unactioned"; user_id := 4 |}
           []).
  - reflexivity.
  - constructor; [|constructor]. split; [vm_compute; congruence|].
    intros (_ & _ & Hin). apply list_elem_of_In in Hin. vm_compute in Hin.
    destruct Hin as [Hin|[]]. discriminate.
  - repeat split; [by right|]. apply list_elem_of_In. vm_compute. tauto.
  - vm_compute. reflexivity.
Defined.

(** ** Batch request executor *)

Section Executor.
Context (C : Constants) (P : Platform).

Lemma send_requests_loop_attempts coros n bad s :
  Forall (λ r, completed r || platform_failure r = true) (fst (attempt_all coros s)) →
  ∃ bad',
    send_requests_loop coros n bad s =
      (Ok ((n + length (filter completed (fst (attempt_all coros s))))%nat, bad'),
       snd (attempt_all coros s)).
Proof.
  revert n bad s. induction coros as [|coro rest IH]; intros n bad s; simpl.
  - intros _. exists bad. by rewrite Nat.add_0_r.
  - rewrite bind_eq. unfold catch.
    destruct (coro s) as [r s1] eqn:Hcoro.
    destruct (attempt_all rest s1) as [rs s2] eqn:Hrest. simpl.
    rewrite Forall_cons. intros [Hr Hrs].
    assert (Hrs' : Forall (λ r, completed r || platform_failure r = true)
                     (fst (attempt_all rest s1))) by by rewrite Hrest.
    destruct r as [[]|[status| | |]]; try done; simpl.
    + destruct (IH (n + 1)%nat bad s1 Hrs') as [bad' ->]. rewrite Hrest. simpl.
      exists bad'. do 3 f_equal. lia.
    + destruct (IH n ({[status]} ∪ bad) s1 Hrs') as [bad' ->]. rewrite Hrest. simpl.
      by exists bad'.
Qed.

Lemma completed_or_failed outcomes :
  Forall (λ r, completed r || platform_failure r = true) outcomes →
  (length (filter completed outcomes) + length (filter platform_failure outcomes))%nat
  = length outcomes.
Proof.
  induction 1 as [|r rs Hr _ IH]; [done|].
  destruct r as [[]|[]]; try done.
  - rewrite filter_cons_True, filter_cons_False by (simpl; auto). simpl. lia.
  - rewrite filter_cons_False, filter_cons_True by (simpl; auto). simpl. lia.
Qed.

Lemma attempt_all_length coros s : length (fst (attempt_all coros s)) = length coros.
Proof.
  revert s. induction coros as [|coro rest IH]; intros s; simpl; [done|].
  destruct (coro s) as [r s1]. specialize (IH s1).
  destruct (attempt_all rest s1). simpl in *. by rewrite IH.
Qed.

Lemma emits_send_requests_loop Φ coros n bad :
  Forall (emits Φ) coros → emits Φ (send_requests_loop coros n bad).
Proof.
  intros Hall. revert n bad.
  induction Hall as [|coro rest Hcoro _ IH]; intros n bad; simpl.
  - apply emits_ret.
  - repeat emits_step; auto.
Qed.

Lemma emits_send_requests Φ coros : Forall (emits Φ) coros → emits Φ (_send_requests coros).
Proof.
  intros Hall. unfold _send_requests. emits_step; [by apply emits_send_requests_loop|].
  repeat emits_step.
Qed.

Lemma emits_give_role Φ members role :
  (∀ c, is_kick c = false → Φ c) → emits Φ (_give_role C P members role).
Proof.
  intros HΦ. unfold _give_role. emits_step; [|emits_step].
  apply emits_send_requests, Forall_fmap, Forall_forall. intros m _.
  change (emits Φ (role_request C P m role)).
  unfold role_request. repeat emits_step. by apply HΦ.
Qed.

Lemma send_requests_loop_returns coros n bad s r s' :
  send_requests_loop coros n bad s = (Ok r, s') →
  Forall (λ r, completed r || platform_failure r = true) (fst (attempt_all coros s)).
Proof.
  revert n bad s. induction coros as [|coro rest IH]; intros n bad s; simpl; [done|].
  rewrite bind_eq. unfold catch.
  destruct (coro s) as [o s1] eqn:Hcoro.
  destruct (attempt_all rest s1) as [rs s2] eqn:Hrest. simpl.
  destruct o as [[]|[status| | |]]; try done; intros Hloop;
    apply IH in Hloop; rewrite Hrest in Hloop; by constructor.
Qed.

(** C6.  The executor returns a count exactly when no request of the batch
    fails with anything but a platform error.  It has then attempted every
    request, each from the state the one before it left, and the count is
    that of the requests that completed: a platform error stops nothing.  Of
    ten requests of which three raise a platform error it returns seven. *)
Theorem send_requests_counts_successes coros s :
  let outcomes := fst (attempt_all coros s) in
  let only_platform_failures :=
    Forall (λ r, completed r || platform_failure r = true) outcomes in
  (only_platform_failures ↔ ∃ n, fst (_send_requests coros s) = Ok n)
  ∧ (only_platform_failures →
     _send_requests coros s
     = (Ok (length (filter completed outcomes)), snd (attempt_all coros s))
     ∧ length outcomes = length coros
     ∧ (length coros = 10%nat → length (filter platform_failure outcomes) = 3%nat →
        fst (_send_requests coros s) = Ok 7%nat)).
Proof.
  intros outcomes only_platform_failures.
  assert (Hrun : only_platform_failures → _send_requests coros s =
            (Ok (length (filter completed outcomes)), snd (attempt_all coros s))).
  { intros Hall. unfold _send_requests. rewrite bind_eq.
    by destruct (send_requests_loop_attempts coros 0 ∅ s Hall) as [bad' ->]. }
  split.
  - split.
    + intros Hall. rewrite (Hrun Hall). eauto.
    + intros [n Hn]. revert Hn. unfold _send_requests. rewrite bind_eq.
      destruct (send_requests_loop coros 0 ∅ s) as [[[n' bad']|e] s1] eqn:Hloop; [|done].
      intros _. by eapply send_requests_loop_returns.
  - intros Hall. split; [by apply Hrun|]. split; [apply attempt_all_length|].
    intros Hlen Hfail. rewrite (Hrun Hall). simpl. f_equal.
    pose proof (completed_or_failed outcomes Hall) as Hsum.
    unfold outcomes in Hsum at 3. rewrite attempt_all_length in Hsum. lia.
Qed.

(** C7.  For a member who is verified when the request runs, the kick
    request sends nothing and kicks no one, and the role request adds no
    role: both return with the state as it was, and the executor counts
    them as successes. *)
Theorem verified_member_request_is_noop s m role :
  is_verified C (guild_at P (trace s)) m = true →
  kick_request C P m s = (Ok (), s)
  ∧ role_request C P m role s = (Ok (), s)
  ∧ _send_requests [kick_request C P m] s = (Ok 1%nat, s)
  ∧ _send_requests [role_request C P m role] s = (Ok 1%nat, s).
Proof.
  intros Hverified.
  assert (Hkick : kick_request C P m s = (Ok (), s)).
  { unfold kick_request. rewrite bind_eq. unfold pydis. by rewrite Hverified. }
  assert (Hrole : role_request C P m role s = (Ok (), s)).
  { unfold role_request. rewrite bind_eq. unfold pydis. by rewrite Hverified. }
  repeat split; try done.
  - unfold _send_requests. simpl. rewrite !bind_eq. unfold catch. by rewrite Hkick.
  - unfold _send_requests. simpl. rewrite !bind_eq. unfold catch. by rewrite Hrole.
Qed.
End Executor.

Lemma send_requests_counts_successes_witness :
  Forall (λ r, completed r || platform_failure r = true)
    (fst (attempt_all demo_requests initial_state))
  ∧ length demo_requests = 10%nat
  ∧ length (filter platform_failure (fst (attempt_all demo_requests initial_state))) = 3%nat
  ∧ fst (_send_requests demo_requests initial_state) = Ok 7%nat.
Proof.
  assert (Hall : Forall (λ r, completed r || platform_failure r = true)
                   (fst (attempt_all demo_requests initial_state))).
  { vm_compute. repeat (constructor; [reflexivity|]). constructor. }
  split; [exact Hall|]. split; [reflexivity|]. split; [vm_compute; reflexivity|].
  apply (proj2 (send_requests_counts_successes demo_requests initial_state) Hall);
    vm_compute; reflexivity.
Defined.

Lemma verified_member_request_is_noop_witness :
  is_verified demo_constants (guild_at demo_platform (trace initial_state)) 4 = true
  ∧ kick_request demo_constants demo_platform 4 initial_state = (Ok (), initial_state).
Proof.
  split; [vm_compute; reflexivity|].
  apply (verified_member_request_is_noop demo_constants demo_platform initial_state 4 None).
  vm_compute. reflexivity.
Defined.

(** ** Membership classifier *)

Section ClassifierFacts.
Context (C : Constants) (P : Platform).

(** The docstring of [is_verified]: some role other than the default role
    and the unverified role. *)
Lemma is_verified_spec g m :
  is_verified C g m = true
  ↔ ∃ r, r ∈ roles (member g m) ∧ r ≠ default_role g
         ∧ get_role g (Roles_unverified C) ≠ Some r.
Proof.
  unfold is_verified. rewrite bool_decide_eq_true.
  set (others := list_to_set (Some <$> roles (member g m))
                   ∖ ({[get_role g (Roles_unverified C); Some (default_role g)]}
                      : gset (option Role))).
  assert (Hothers : ∀ x, x ∈ others ↔
            ∃ r, x = Some r ∧ r ∈ roles (member g m) ∧ r ≠ default_role g
                 ∧ get_role g (Roles_unverified C) ≠ Some r).
  { intros x. unfold others.
    rewrite elem_of_difference, elem_of_list_to_set, list_elem_of_fmap,
      elem_of_union, !elem_of_singleton.
    split.
    - intros [(r & -> & Hr) Hnot]. exists r. repeat split; [done|..]; naive_solver.
    - intros (r & -> & Hr & Hdef & Hunv). split; [eauto|]. naive_solver. }
  split.
  - intros [x Hx]%size_pos_elem_of. apply Hothers in Hx as (r & _ & Hr). eauto.
  - intros (r & Hr). assert (Hin : Some r ∈ others) by (apply Hothers; eauto).
    destruct (decide (size others = 0%nat)) as [Hz|Hz]; [|lia].
    apply size_empty_iff in Hz. set_solver.
Qed.

Lemma check_member_step g now acc x m :
  let acc' := check_member C g (get_role g (Roles_unverified C)) now acc x in
  (m ∈ fst acc' ↔ m ∈ fst acc ∨ (m = x ∧ role_due C g now x))
  ∧ (m ∈ snd acc' ↔ m ∈ snd acc ∨ (m = x ∧ kick_due C g now x)).
Proof.
  destruct acc as [for_role for_kick]. unfold check_member, role_due, kick_due. simpl.
  destruct (is_verified C g x); simpl; [naive_solver|].
  destruct (bot (member g x)); simpl; [naive_solver|].
  destruct (joined_at (member g x)) as [joined|]; simpl; [|naive_solver].
  repeat case_bool_decide; simpl; rewrite ?elem_of_union, ?elem_of_singleton;
    split; split; naive_solver lia.
Qed.
End ClassifierFacts.

Section ClassifierRun.
Context (C : Constants) (P : Platform).

Lemma check_members_fold g now l acc m :
  let res := foldl (check_member C g (get_role g (Roles_unverified C)) now) acc l in
  (m ∈ fst res ↔ m ∈ fst acc ∨ (m ∈ l ∧ role_due C g now m))
  ∧ (m ∈ snd res ↔ m ∈ snd acc ∨ (m ∈ l ∧ kick_due C g now m)).
Proof.
  revert acc. induction l as [|x l IH]; intros acc; simpl.
  - rewrite !elem_of_nil. naive_solver.
  - destruct (IH (check_member C g (get_role g (Roles_unverified C)) now acc x))
      as [IH1 IH2].
    destruct (check_member_step C g now acc x m) as [S1 S2]. simpl in S1, S2.
    rewrite IH1, IH2, S1, S2, !elem_of_cons. naive_solver.
Qed.

Lemma check_members_spec g now m :
  (m ∈ fst (check_members C g now) ↔ m ∈ members g ∧ role_due C g now m)
  ∧ (m ∈ snd (check_members C g now) ↔ m ∈ members g ∧ kick_due C g now m).
Proof.
  destruct (check_members_fold g now (members g) (∅, ∅) m) as [H1 H2].
  unfold check_members. simpl in *. rewrite H1, H2. set_solver.
Qed.

Lemma check_members_run s :
  _check_members C P s =
    (Ok (check_members C (guild_at P (trace s ++ [WaitUntilGuildAvailable]))
           (utcnow_at P (trace s ++ [WaitUntilGuildAvailable]))),
     log_call WaitUntilGuildAvailable s).
Proof. reflexivity. Qed.

Lemma emits_check_members Φ :
  (∀ c, is_kick c = false → Φ c) → emits Φ (_check_members C P).
Proof. intros HΦ. unfold _check_members. repeat emits_step. by apply HΦ. Qed.

(** C4.  The classifier returns, and for every member of the roster: a
    member who is verified, is a bot or has no join date is in neither
    set; any other member, with [elapsed] the time since the join date, is
    in [for_kick] exactly when [elapsed] exceeds 30 days, is in [for_role]
    exactly when [elapsed] exceeds 3 days but not 30 and the member does
    not hold the unverified role, and is in neither set when [elapsed] is
    at most 3 days. *)
Theorem check_members_classification s :
  let s1 := log_call WaitUntilGuildAvailable s in
  let g := guild_at P (trace s1) in
  let now := utcnow_at P (trace s1) in
  let unverified := get_role g (Roles_unverified C) in
  ∃ for_role for_kick,
    _check_members C P s = (Ok (for_role, for_kick), s1)
    ∧ ∀ m, m ∈ members g →
        (is_verified C g m = true ∨ bot (member g m) = true
         ∨ joined_at (member g m) = None →
         (m ∉ for_role) ∧ (m ∉ for_kick))
        ∧ (∀ joined,
             is_verified C g m = false → bot (member g m) = false →
             joined_at (member g m) = Some joined →
             let elapsed := now - joined in
             (m ∈ for_kick ↔ elapsed > timedelta_days KICKED_AFTER)
             ∧ (m ∈ for_role ↔
                  timedelta_days UNVERIFIED_AFTER < elapsed
                  ∧ elapsed ≤ timedelta_days KICKED_AFTER
                  ∧ unverified ∉ Some <$> roles (member g m))
             ∧ (elapsed ≤ timedelta_days UNVERIFIED_AFTER →
                (m ∉ for_role) ∧ (m ∉ for_kick))).
Proof.
  intros s1 g now unverified.
  exists (fst (check_members C g now)), (snd (check_members C g now)).
  split; [rewrite check_members_run; by destruct (check_members _ _ _)|].
  intros m Hm. destruct (check_members_spec g now m) as [Hrole Hkick].
  unfold role_due, kick_due in *. fold unverified in Hrole. split.
  - intros Hskip. rewrite Hrole, Hkick.
    split; intros (_ & Hv & Hb & joined & Hj & Hrest);
      destruct Hskip as [?|[?|?]]; congruence.
  - intros joined Hv Hb Hj. cbv zeta.
    assert (Hjoined : ∀ j, joined_at (member g m) = Some j → j = joined)
      by (intros j Hj'; congruence).
    split; [|split].
    + rewrite Hkick. split.
      * intros (_ & _ & _ & j & Hj' & Hgt). by rewrite <- (Hjoined j Hj').
      * intros Hgt. repeat split; eauto.
    + rewrite Hrole. split.
      * intros (_ & _ & _ & j & Hj' & Hdue). by rewrite <- (Hjoined j Hj').
      * intros Hdue. repeat split; eauto.
    + intros Hle. split.
      * rewrite Hrole. intros (_ & _ & _ & j & Hj' & Hgt & _).
        rewrite (Hjoined j Hj') in Hgt. lia.
      * rewrite Hkick. intros (_ & _ & _ & j & Hj' & Hgt).
        rewrite (Hjoined j Hj') in Hgt.
        unfold timedelta_days, KICKED_AFTER, UNVERIFIED_AFTER in *. lia.
Qed.

(** C5.  The two sets the classifier returns share no member, and no
    member of either set is verified in the roster it read. *)
Theorem check_members_disjoint s :
  let s1 := log_call WaitUntilGuildAvailable s in
  let g := guild_at P (trace s1) in
  ∃ for_role for_kick,
    _check_members C P s = (Ok (for_role, for_kick), s1)
    ∧ for_role ∩ for_kick = ∅
    ∧ ∀ m, m ∈ for_role ∪ for_kick → is_verified C g m = false.
Proof.
  intros s1 g. set (now := utcnow_at P (trace s1)).
  exists (fst (check_members C g now)), (snd (check_members C g now)).
  split; [rewrite check_members_run; by destruct (check_members _ _ _)|].
  split.
  - apply set_eq. intros m. rewrite elem_of_intersection, elem_of_empty.
    destruct (check_members_spec g now m) as [-> ->]. unfold role_due, kick_due.
    split; [|done].
    intros [(_ & _ & _ & j & Hj & _ & Hle & _) (_ & _ & _ & j' & Hj' & Hgt)].
    simplify_eq. lia.
  - intros m. rewrite elem_of_union.
    destruct (check_members_spec g now m) as [-> ->]. unfold role_due, kick_due.
    naive_solver.
Qed.
End ClassifierRun.

Lemma check_members_classification_witness :
  ∃ for_role for_kick,
    _check_members demo_constants demo_platform initial_state
    = (Ok (for_role, for_kick), log_call WaitUntilGuildAvailable initial_state)
    ∧ 1 ∈ for_kick ∧ 3 ∈ for_role ∧ (2 ∉ for_role) ∧ (4 ∉ for_kick).
Proof.
  destruct (check_members_classification demo_constants demo_platform initial_state)
    as (for_role & for_kick & Hrun & Hclass).
  exists for_role, for_kick. split; [exact Hrun|].
  assert (Hin : ∀ m : Z, In m [1; 2; 3; 4; 5] →
            m ∈ members (guild_at demo_platform
                           (trace (log_call WaitUntilGuildAvailable initial_state))))
    by (intros m; apply list_elem_of_In).
  destruct (proj2 (Hclass 1 (Hin 1 ltac:(simpl; tauto))) 0)
    as (Hkick1 & _ & _); [vm_compute; reflexivity..|].
  destruct (proj2 (Hclass 2 (Hin 2 ltac:(simpl; tauto))) (28 * microseconds_per_day))
    as (_ & Hrole2 & _); [vm_compute; reflexivity..|].
  destruct (proj2 (Hclass 3 (Hin 3 ltac:(simpl; tauto))) (28 * microseconds_per_day))
    as (_ & Hrole3 & _); [vm_compute; reflexivity..|].
  repeat split.
  - apply Hkick1. vm_compute. reflexivity.
  - apply Hrole3. repeat split; try (vm_compute; congruence).
    intros Hheld. apply list_elem_of_In in Hheld. vm_compute in Hheld.
    destruct Hheld as [Hheld|Hheld]; [discriminate Hheld|exact Hheld].
  - intros Hrole. apply Hrole2 in Hrole. destruct Hrole as (_ & _ & Hheld).
    apply Hheld. apply list_elem_of_In. vm_compute. tauto.
  - apply (proj1 (Hclass 4 (Hin 4 ltac:(simpl; tauto)))). left. vm_compute. reflexivity.
Defined.

(** ** Lifecycle scheduler *)

Section Lifecycle.
Context (C : Constants) (P : Platform) (threshold : Q).

Lemma emits_role_report Φ for_role unverified :
  (∀ c, is_kick c = false → Φ c) → emits Φ (role_report C P for_role unverified).
Proof.
  intros HΦ. unfold role_report. case_decide; repeat emits_step.
  by apply emits_give_role.
Qed.

(** A run, step by step. *)
Lemma update_unverified_members_run s :
  let s0 := log_call WaitUntilGuildAvailable s in
  let unverified := get_role (guild_at P (trace s0)) (Roles_unverified C) in
  update_unverified_members C P threshold s =
    match _check_members C P s0 with
    | (Ok found, s1) =>
        match role_report C P (fst found) unverified s1 with
        | (Ok report, s2) =>
            match kick_report C P threshold (snd found) s2 with
            | (Ok kicks, s3) => request P (SendLogMessage kicks report) s3
            | (Raise e, s3) => (Raise e, s3)
            end
        | (Raise e, s2) => (Raise e, s2)
        end
    | (Raise e, s1) => (Raise e, s1)
    end.
Proof.
  cbv zeta. unfold update_unverified_members. rewrite bind_eq. unfold perform at 1.
  cbv beta iota. rewrite bind_eq. unfold pydis at 1. cbv beta iota zeta.
  rewrite bind_eq. destruct (_check_members _ _ _) as [[[for_role for_kick]|e] s1]; [|done].
  cbn [fst snd]. by rewrite bind_eq.
Qed.

(** The block that computes [kick_report], once the authorizer has answered. *)
Lemma kick_report_after_verdict for_kick s2 verdict s3 :
  for_kick ≠ ∅ →
  _verify_kick C P threshold (Z.of_nat (size for_kick)) s2 = (verdict, s3) →
  kick_report C P threshold for_kick s2 =
    match verdict with
    | Ok true =>
        (n_kicks ← _kick_members C P for_kick; mret (Kicked n_kicks (size for_kick))) s3
    | Ok false => (Ok (NotAuthorized (size for_kick)), s3)
    | Raise e => (Raise e, s3)
    end.
Proof.
  intros Hne Hverify. unfold kick_report. rewrite decide_False by done.
  rewrite bind_eq, Hverify. by destruct verdict as [[]|e].
Qed.

Lemma no_kick_between s s' t :
  trace s' = trace s ++ t → Forall (λ c, is_kick c = false) t →
  ∀ m, MemberKick m ∉ new_calls s s'.
Proof. intros Ht Hall. rewrite (new_calls_app _ _ _ Ht). by apply not_kick_Forall. Qed.

(** C3.  In a run that comes to ask the authorizer about the members it found
    to kick: when the authorizer does not answer yes the run kicks no one,
    and when it answers no the summary the run sends says that kicking that
    many members was not authorized.  In any run, a kick request is made
    only after the authorizer was asked and said yes. *)
Theorem denied_kick_is_not_executed s :
  let s' := snd (update_unverified_members C P threshold s) in
  (∀ for_kick report s2 verdict s3,
     authorizer_asked C P s for_kick report s2 →
     _verify_kick C P threshold (Z.of_nat (size for_kick)) s2 = (verdict, s3) →
     (verdict ≠ Ok true → ∀ m, MemberKick m ∉ new_calls s s')
     ∧ (verdict = Ok false →
        last (trace s') = Some (SendLogMessage (NotAuthorized (size for_kick)) report)))
  ∧ (∀ m, MemberKick m ∈ new_calls s s' →
     ∃ for_kick report s2 s3,
       authorizer_asked C P s for_kick report s2
       ∧ _verify_kick C P threshold (Z.of_nat (size for_kick)) s2 = (Ok true, s3)).
Proof.
  intros s'. subst s'. rewrite update_unverified_members_run.
  set (s0 := log_call WaitUntilGuildAvailable s).
  set (unverified := get_role (guild_at P (trace s0)) (Roles_unverified C)).
  pose (Φ := λ c, is_kick c = false).
  assert (HΦ : ∀ c, is_kick c = false → Φ c) by done.
  assert (Hs0 : trace s0 = trace s ++ [WaitUntilGuildAvailable]) by done.
  assert (Hdenied : ∀ for_kick report s2 verdict s3,
    authorizer_asked C P s for_kick report s2 →
    _verify_kick C P threshold (Z.of_nat (size for_kick)) s2 = (verdict, s3) →
    verdict ≠ Ok true →
    ∃ t, trace s3 = trace s ++ t ∧ Forall Φ t).
  { intros for_kick report s2 verdict s3 (for_role & s1 & Hcheck & Hrole & Hne) Hverify _.
    destruct (emits_extend Φ _ _ _ _ (emits_check_members C P Φ HΦ) Hcheck)
      as (t1 & Ht1 & HΦ1).
    destruct (emits_extend Φ _ _ _ _ (emits_role_report Φ _ _ HΦ) Hrole)
      as (t2 & Ht2 & HΦ2).
    destruct (emits_extend Φ _ _ _ _ (emits_verify_kick C P threshold Φ _ HΦ) Hverify)
      as (t3 & Ht3 & HΦ3).
    exists (WaitUntilGuildAvailable :: t1 ++ t2 ++ t3). split.
    - rewrite Ht3, Ht2, Ht1. simpl. by rewrite <- !app_assoc.
    - constructor; [done|]. by rewrite !Forall_app. }
  split.
  - intros for_kick report s2 verdict s3 Hasked Hverify.
    pose proof (Hdenied _ _ _ _ _ Hasked Hverify) as Hcalls.
    destruct Hasked as (for_role & s1 & Hcheck & Hrole & Hne).
    fold s0 unverified in Hcheck, Hrole. rewrite Hcheck. cbn [fst snd]. rewrite Hrole.
    rewrite (kick_report_after_verdict _ _ _ _ Hne Hverify). split.
    + intros Hnot. destruct (Hcalls Hnot) as (t & Ht & Hall).
      destruct verdict as [[]|e]; [done| |by apply (no_kick_between _ _ t)].
      apply (no_kick_between _ _ (t ++ [SendLogMessage (NotAuthorized (size for_kick)) report])).
      * unfold request. destruct (http_status _ _ _); simpl; by rewrite Ht, <- app_assoc.
      * apply Forall_app. split; [done|]. by constructor.
    + intros ->. unfold request. destruct (http_status _ _ _); simpl; apply last_snoc.
  - intros m.
    destruct (_check_members C P s0) as [[[for_role for_kick]|e] s1] eqn:Hcheck;
      destruct (emits_extend Φ _ _ _ _ (emits_check_members C P Φ HΦ) Hcheck)
        as (t1 & Ht1 & HΦ1); cbn [fst snd].
    2: { intros Hin. exfalso. revert Hin.
         apply (no_kick_between _ _ (WaitUntilGuildAvailable :: t1)).
         - simpl. rewrite Ht1, Hs0. by rewrite <- app_assoc.
         - by constructor. }
    destruct (role_report C P for_role unverified s1) as [[report|e] s2] eqn:Hrole;
      destruct (emits_extend Φ _ _ _ _ (emits_role_report Φ _ _ HΦ) Hrole)
        as (t2 & Ht2 & HΦ2).
    2: { intros Hin. exfalso. revert Hin.
         apply (no_kick_between _ _ (WaitUntilGuildAvailable :: t1 ++ t2)).
         - simpl. rewrite Ht2, Ht1, Hs0. by rewrite <- !app_assoc.
         - constructor; [done|]. by rewrite Forall_app. }
    destruct (decide (for_kick = ∅)) as [Hempty|Hne].
    { intros Hin. exfalso. revert Hin. unfold kick_report. rewrite decide_True by done.
      unfold mret, M_ret. cbv beta iota.
      apply (no_kick_between _ _ (WaitUntilGuildAvailable :: t1 ++ t2 ++
               [SendLogMessage NoUsersToKick report])).
      - unfold request. destruct (http_status _ _ _); simpl;
          rewrite Ht2, Ht1, Hs0; by rewrite <- !app_assoc.
      - constructor; [done|]. rewrite !Forall_app. repeat split; try done. by constructor. }
    assert (Hasked : authorizer_asked C P s for_kick report s2).
    { exists for_role, s1. by fold s0 unverified. }
    destruct (_verify_kick C P threshold (Z.of_nat (size for_kick)) s2)
      as [verdict s3] eqn:Hverify.
    rewrite (kick_report_after_verdict _ _ _ _ Hne Hverify).
    assert (Hcases : verdict = Ok true ∨ verdict ≠ Ok true)
      by (destruct verdict as [[]|]; [by left|by right..]).
    destruct Hcases as [->|Hnot]; [by eauto 10|].
    intros Hin. exfalso. revert Hin.
    destruct (Hdenied _ _ _ _ _ Hasked Hverify Hnot) as (t & Ht & Hall).
    destruct verdict as [[]|e]; [done| |by apply (no_kick_between _ _ t)].
    apply (no_kick_between _ _ (t ++ [SendLogMessage (NotAuthorized (size for_kick)) report])).
    + unfold request. destruct (http_status _ _ _); simpl; by rewrite Ht, <- app_assoc.
    + apply Forall_app. split; [done|]. by constructor.
Qed.
End Lifecycle.

Lemma denied_kick_is_not_executed_witness :
  authorizer_asked demo_constants demo_platform initial_state {[ 1 ]} (Assigned 1 1)
    demo_role_given
  ∧ _verify_kick demo_constants demo_platform default_KICK_CONFIRMATION_THRESHOLD
      (Z.of_nat (size ({[ 1 ]} : gset Member))) demo_role_given = (Ok false, demo_answered)
  ∧ (∀ m, MemberKick m ∉ new_calls initial_state
            (snd (update_unverified_members demo_constants demo_platform
                    default_KICK_CONFIRMATION_THRESHOLD initial_state)))
  ∧ last (trace (snd (update_unverified_members demo_constants demo_platform
                        default_KICK_CONFIRMATION_THRESHOLD initial_state)))
    = Some (SendLogMessage (NotAuthorized 1) (Assigned 1 1)).
Proof.
  assert (Hasked : authorizer_asked demo_constants demo_platform initial_state {[ 1 ]}
                     (Assigned 1 1) demo_role_given).
  { exists {[ 3 ]}, demo_checked. split; [vm_compute; reflexivity|].
    split; [vm_compute; reflexivity|]. apply non_empty_singleton_L. }
  assert (Hverdict : _verify_kick demo_constants demo_platform
                       default_KICK_CONFIRMATION_THRESHOLD
                       (Z.of_nat (size ({[ 1 ]} : gset Member))) demo_role_given
                     = (Ok false, demo_answered)) by (vm_compute; reflexivity).
  destruct (proj1 (denied_kick_is_not_executed demo_constants demo_platform
                     default_KICK_CONFIRMATION_THRESHOLD initial_state)
              _ _ _ _ _ Hasked Hverdict) as [Hnobody Hsummary].
  split; [exact Hasked|]. split; [exact Hverdict|].
  split; [apply Hnobody; discriminate | apply Hsummary; reflexivity].
Defined.

(** ** Reminder scheduler *)

Section Reminder.
Context (C : Constants) (P : Platform).

Lemma max_total_seconds td :
  (Qmax (total_seconds td) 0 == inject_Z (Z.max 0 td) / 1000000)%Q.
Proof.
  unfold total_seconds. destruct (Z.le_gt_cases 0 td) as [Hpos|Hneg].
  - rewrite Z.max_r by done. rewrite Q.max_l.
    + unfold Qeq, Qdiv, Qmult, Qinv, inject_Z. simpl. lia.
    + unfold Qle. simpl. lia.
  - rewrite Z.max_l by lia. rewrite Q.max_r; [done|].
    unfold Qle. simpl. lia.
Qed.

(** C8.  Before the first run: with no reminder on record the task
    returns at once, without sleeping; with the reminder [last] on record
    it sleeps once, for the seconds left of the 28 hours since the time
    carried by [last], and for none when they have passed.  Ten hours
    after that time, it sleeps 18 hours. *)
Theorem before_first_ping_delay s :
  let s1 := log_call (CacheGet "last_reminder") s in
  match task_cache s !! "last_reminder" with
  | None => _before_first_ping P s = (Ok (), s1)
  | Some last =>
      let elapsed := utcnow_at P (trace s1) - snowflake_time last in
      ∃ secs,
        _before_first_ping P s = (Ok (), log_call (Sleep secs) s1)
        ∧ (secs == inject_Z (Z.max 0 (timedelta_hours 28 - elapsed)) / 1000000)%Q
        ∧ (elapsed = timedelta_hours 10 → (secs == 18 * 3600)%Q)
  end.
Proof.
  cbv zeta. unfold _before_first_ping. rewrite bind_eq. unfold cache_get.
  destruct (task_cache s !! "last_reminder") as [last|]; [|done].
  rewrite bind_eq. unfold utcnow, perform. cbv beta iota.
  eexists. split; [reflexivity|].
  split; [apply max_total_seconds|].
  intros Hten. rewrite max_total_seconds, Hten. reflexivity.
Qed.

(** C10.  A run that fails leaves the task cache as it was.  When the
    verification channel exists, a failed send of the new reminder ends the
    run with the cache untouched, and a successful one is followed by the
    only write of the run, which records the message just sent. *)
Theorem ping_unverified_cursor s :
  let r := ping_unverified C P s in
  (∀ e, fst r = Raise e → task_cache (snd r) = task_cache s)
  ∧ (let ch := Channels_verification C in
     let h0 := trace s ++ [WaitUntilGuildAvailable; CacheGet "last_reminder"] in
     let h := h0 ++ match task_cache s !! "last_reminder" with
                    | Some last => [DeleteMessage ch last]
                    | None => []
                    end in
     let send := ChannelSend ch REMINDER_MESSAGE in
     ch ∈ guild_channels (guild_at P (trace s ++ [WaitUntilGuildAvailable])) →
     match http_status P h send with
     | Some status =>
         r = (Raise (HTTPException status),
              {| trace := h ++ [send]; task_cache := task_cache s |})
     | None =>
         let new_reminder := sent_message P (h ++ [send]) in
         r = (Ok (),
              {| trace := h ++ [send; CacheSet "last_reminder" new_reminder];
                 task_cache := <["last_reminder" := new_reminder]> (task_cache s) |})
     end).
Proof.
  unfold ping_unverified. unfold_M. simpl. split.
  - intros e. repeat (case_match; simplify_eq/=; try done).
  - intros Hch. unfold get_channel. rewrite decide_True by done. simpl.
    destruct (task_cache s !! "last_reminder") as [last|]; simpl.
    + flatten_trace.
      destruct (http_status P _ (DeleteMessage _ _)); simpl; flatten_trace;
        destruct (http_status P _ (ChannelSend _ _)); simpl; flatten_trace; done.
    + flatten_trace.
      destruct (http_status P _ (ChannelSend _ _)); simpl; flatten_trace; done.
Qed.
End Reminder.

Lemma before_first_ping_delay_witness :
  ∃ secs,
    _before_first_ping restart_platform reminded_state
    = (Ok (), log_call (Sleep secs) (log_call (CacheGet "last_reminder") reminded_state))
    ∧ (secs == 18 * 3600)%Q.
Proof.
  destruct (before_first_ping_delay restart_platform reminded_state)
    as (secs & Hrun & _ & Hten).
  exists secs. split; [exact Hrun|]. apply Hten. vm_compute. reflexivity.
Defined.

Lemma ping_unverified_cursor_witness :
  Channels_verification demo_constants
    ∈ guild_channels (guild_at demo_platform
                        (trace reminded_state ++ [WaitUntilGuildAvailable]))
  ∧ ping_unverified demo_constants demo_platform reminded_state
    = (Ok (),
       {| trace := [WaitUntilGuildAvailable; CacheGet "last_reminder";
                    DeleteMessage 101 0; ChannelSend 101 REMINDER_MESSAGE;
                    CacheSet "last_reminder" 777];
          task_cache := <["last_reminder" := 777]> (task_cache reminded_state) |}).
Proof.
  assert (Hch : Channels_verification demo_constants
            ∈ guild_channels (guild_at demo_platform
                                (trace reminded_state ++ [WaitUntilGuildAvailable]))).
  { apply list_elem_of_In. vm_compute. tauto. }
  split; [exact Hch|].
  exact (proj2 (ping_unverified_cursor demo_constants demo_platform reminded_state) Hch).
Defined.

(** ** Further properties: classifier *)

Section ClassifierMore.
Context (C : Constants).

(** X1.  Holding the unverified role makes no difference to being verified:
    between two views of a guild with the same roles and default role, where
    the unverified role exists and the member holds the same roles but for
    that one, [is_verified] gives the same answer.  So the role the task
    gives never takes a member out of its reach. *)
Theorem unverified_role_does_not_verify g g' m :
  guild_roles g' = guild_roles g →
  default_role g' = default_role g →
  Roles_unverified C ∈ guild_roles g →
  (∀ r, r ≠ Roles_unverified C → r ∈ roles (member g' m) ↔ r ∈ roles (member g m)) →
  is_verified C g' m = is_verified C g m.
Proof.
  intros Hroles Hdefault Hexists Hsame.
  assert (Hunverified : ∀ h, guild_roles h = guild_roles g →
            get_role h (Roles_unverified C) = Some (Roles_unverified C)).
  { intros h Hh. unfold get_role. by rewrite decide_True by (by rewrite Hh). }
  apply eq_true_iff_eq. rewrite !is_verified_spec.
  rewrite (Hunverified g' Hroles), (Hunverified g eq_refl), Hdefault.
  split; intros (r & Hr & Hdef & Hunv); exists r;
    (split; [apply Hsame; [by intros ->|done]|done]).
Qed.
End ClassifierMore.

Lemma unverified_role_does_not_verify_witness :
  is_verified demo_constants demo_guild_warned 3 = is_verified demo_constants demo_guild 3.
Proof.
  apply (unverified_role_does_not_verify demo_constants demo_guild demo_guild_warned 3).
  - reflexivity.
  - reflexivity.
  - apply list_elem_of_In. vm_compute. tauto.
  - intros r Hr. change (roles (member demo_guild_warned 3)) with [1; 10].
    change (roles (member demo_guild 3)) with [1].
    change (Roles_unverified demo_constants) with 10 in Hr.
    rewrite !list_elem_of_In. simpl. intuition congruence.
Defined.

(** ** Further properties: executor and requests *)

Section ExecutorMore.
Context (C : Constants) (P : Platform).

Lemma filter_completed_all (outcomes : list (result unit)) :
  length (filter completed outcomes) = length outcomes
  ↔ Forall (λ r, completed r = true) outcomes.
Proof.
  induction outcomes as [|r rs IH]; [by split; [constructor|]|].
  pose proof (length_filter (λ r, completed r) rs) as Hle.
  destruct r as [[]|e].
  - rewrite filter_cons_True by done. simpl. rewrite Forall_cons.
    split; [intros ?; split; [done|apply IH; lia]|intros [_ ?%IH]; lia].
  - rewrite filter_cons_False by (simpl; auto). simpl. rewrite Forall_cons.
    split; [lia|by intros [? _]].
Qed.

(** X2.  The count the executor returns never exceeds the number of
    requests, and equals it exactly when every request completed. *)
Theorem send_requests_at_most_all coros s n s' :
  _send_requests coros s = (Ok n, s') →
  (n ≤ length coros)%nat
  ∧ (n = length coros ↔ Forall (λ r, completed r = true) (fst (attempt_all coros s))).
Proof.
  unfold _send_requests. rewrite bind_eq.
  destruct (send_requests_loop coros 0 ∅ s) as [[[n' bad']|e] s1] eqn:Hloop; [|done].
  intros [= <- <-].
  pose proof (send_requests_loop_returns _ _ _ _ _ _ Hloop) as Hall.
  destruct (send_requests_loop_attempts coros 0 ∅ s Hall) as [bad'' Hrun].
  rewrite Hrun in Hloop. injection Hloop as Hn _ _. simpl in Hn. subst n'.
  pose proof (length_filter (λ r, completed r) (fst (attempt_all coros s))) as Hle.
  rewrite attempt_all_length in Hle. split; [done|].
  rewrite <- filter_completed_all, attempt_all_length. done.
Qed.

(** X3.  For a member who is still unverified, the kick is attempted when
    the direct message went through or was forbidden (status 403), and the
    request then ends as the kick does; any other failure of the direct
    message ends the request with that error, before any kick. *)
Theorem kick_request_after_direct_message m s :
  is_verified C (guild_at P (trace s)) m = false →
  let dm := MemberSend m KICKED_MESSAGE in
  let s1 := log_call dm s in
  match http_status P (trace s) dm with
  | None => kick_request C P m s = request P (MemberKick m) s1
  | Some status =>
      if decide (status = 403) then kick_request C P m s = request P (MemberKick m) s1
      else kick_request C P m s = (Raise (HTTPException status), s1)
  end.
Proof.
  intros Hnot. cbv zeta. unfold kick_request. unfold_M. simpl. rewrite Hnot.
  destruct (http_status P (trace s) (MemberSend m KICKED_MESSAGE)) as [status|];
    [|reflexivity].
  simpl. case_bool_decide; case_decide; done.
Qed.

Lemma send_requests_loop_noops (requests : list (M unit)) n bad s :
  Forall (λ coro, coro s = (Ok (), s)) requests →
  send_requests_loop requests n bad s = (Ok ((n + length requests)%nat, bad), s).
Proof.
  intros Hall. revert n. induction Hall as [|coro rest Hcoro _ IH]; intros n; simpl.
  - by rewrite Nat.add_0_r.
  - rewrite bind_eq. unfold catch. rewrite Hcoro. rewrite IH. do 3 f_equal. lia.
Qed.

(** X4.  When every member handed over has verified by the time the requests
    run, no one is messaged, kicked or given a role, and yet every request
    counts: [_kick_members] returns the size of the set and reports it as
    kicked to the statistics, and [_give_role] returns the size of the set. *)
Theorem batches_of_verified_members members role s :
  (∀ m, m ∈ members → is_verified C (guild_at P (trace s)) m = true) →
  _kick_members C P members s
  = (Ok (size members), log_call (StatsIncr "verification.kicked" (size members)) s)
  ∧ _give_role C P members role s = (Ok (size members), s).
Proof.
  intros Hverified.
  assert (Hnoop : ∀ m, m ∈ elements members →
            kick_request C P m s = (Ok (), s) ∧ role_request C P m role s = (Ok (), s)).
  { intros m Hm%elem_of_elements. specialize (Hverified m Hm).
    unfold kick_request, role_request. rewrite !bind_eq. unfold pydis.
    by rewrite Hverified. }
  split.
  - unfold _kick_members, _send_requests. rewrite !bind_eq.
    rewrite (send_requests_loop_noops _ 0 ∅ s).
    + by rewrite length_fmap.
    + apply Forall_fmap, Forall_forall. intros m Hm. by apply Hnoop.
  - unfold _give_role, _send_requests. rewrite !bind_eq.
    rewrite (send_requests_loop_noops _ 0 ∅ s).
    + by rewrite length_fmap.
    + apply Forall_fmap, Forall_forall. intros m Hm. by apply (Hnoop m).
Qed.
End ExecutorMore.

Lemma send_requests_at_most_all_witness : (7 ≤ length demo_requests)%nat.
Proof.
  apply (send_requests_at_most_all demo_requests initial_state 7
           (snd (_send_requests demo_requests initial_state))).
  vm_compute. reflexivity.
Defined.

Lemma kick_request_after_direct_message_witness :
  is_verified demo_constants (guild_at demo_platform (trace initial_state)) 1 = false
  ∧ kick_request demo_constants demo_platform 1 initial_state
    = request demo_platform (MemberKick 1) (log_call (MemberSend 1 KICKED_MESSAGE) initial_state).
Proof.
  split; [vm_compute; reflexivity|].
  apply (kick_request_after_direct_message demo_constants demo_platform 1 initial_state).
  vm_compute. reflexivity.
Defined.

Lemma batches_of_verified_members_witness :
  _kick_members demo_constants demo_platform {[ 4 ]} initial_state
  = (Ok (size ({[ 4 ]} : gset Member)),
     log_call (StatsIncr "verification.kicked" (size ({[ 4 ]} : gset Member))) initial_state).
Proof.
  apply (batches_of_verified_members demo_constants demo_platform {[ 4 ]} None initial_state).
  intros m Hm. apply elem_of_singleton in Hm. rewrite Hm. vm_compute. reflexivity.
Defined.

(** ** Further properties: lifecycle task *)

Section LifecycleMore.
Context (C : Constants) (P : Platform) (threshold : Q).

Lemma emits_verify_kick_quiet Φ n :
  (∀ c, is_member_action c = false → Φ c) → emits Φ (_verify_kick C P threshold n).
Proof. intros HΦ. unfold _verify_kick. repeat emits_step; by apply HΦ. Qed.

Lemma emits_kick_members Φ members :
  (∀ c, is_member_action c = false → Φ c) →
  (∀ m, m ∈ members → Φ (MemberSend m KICKED_MESSAGE) ∧ Φ (MemberKick m)) →
  emits Φ (_kick_members C P members).
Proof.
  intros HΦ Hmembers. unfold _kick_members. emits_step.
  - apply emits_send_requests, Forall_fmap, Forall_forall. intros m Hm%elem_of_elements.
    change (emits Φ (kick_request C P m)). destruct (Hmembers m Hm).
    unfold kick_request. by repeat emits_step.
  - repeat emits_step. by apply HΦ.
Qed.

Lemma emits_give_role_within Φ members role :
  (∀ m r, m ∈ members → role = Some r → Φ (MemberAddRoles m r)) →
  emits Φ (_give_role C P members role).
Proof.
  intros Hmembers. unfold _give_role. emits_step; [|emits_step].
  apply emits_send_requests, Forall_fmap, Forall_forall. intros m Hm%elem_of_elements.
  change (emits Φ (role_request C P m role)). unfold role_request.
  emits_step; [emits_step|]. emits_step; [emits_step|].
  destruct role as [r|].
  - intros s. apply (emits_request P Φ (MemberAddRoles m r)). by apply Hmembers.
  - intros s. exists []. by rewrite app_nil_r.
Qed.

Lemma emits_role_report_within Φ for_role unverified :
  (∀ m r, m ∈ for_role → unverified = Some r → Φ (MemberAddRoles m r)) →
  emits Φ (role_report C P for_role unverified).
Proof.
  intros Hmembers. unfold role_report. case_decide; repeat emits_step.
  by apply emits_give_role_within.
Qed.

Lemma emits_kick_report Φ for_kick :
  (∀ c, is_member_action c = false → Φ c) →
  (∀ m, m ∈ for_kick → Φ (MemberSend m KICKED_MESSAGE) ∧ Φ (MemberKick m)) →
  emits Φ (kick_report C P threshold for_kick).
Proof.
  intros HΦ Hmembers. unfold kick_report. case_decide; [apply emits_ret|].
  emits_step; [by apply emits_verify_kick_quiet|].
  repeat emits_step. by apply emits_kick_members.
Qed.

(** The run from [s], after its classification. *)
Lemma update_unverified_members_found s :
  let s0 := log_call WaitUntilGuildAvailable s in
  let s1 := log_call WaitUntilGuildAvailable s0 in
  let unverified := get_role (guild_at P (trace s0)) (Roles_unverified C) in
  let found := check_members C (guild_at P (trace s1)) (utcnow_at P (trace s1)) in
  update_unverified_members C P threshold s =
    (report ← role_report C P (fst found) unverified;
     kicks ← kick_report C P threshold (snd found);
     request P (SendLogMessage kicks report)) s1.
Proof.
  cbv zeta. unfold update_unverified_members. rewrite bind_eq. unfold perform at 1.
  cbv beta iota. rewrite bind_eq. unfold pydis at 1. cbv beta iota zeta.
  rewrite bind_eq, check_members_run. cbv beta iota.
  by destruct (check_members _ _ _).
Qed.

(** X5.  Whatever the platform does, a run sends the kick message to, and
    kicks, only members of the roster it classified who were then
    unverified, not bots and more than 30 days in the guild; and it gives
    only the unverified role, only to members of that roster who were then
    unverified, not bots, between 3 and 30 days in the guild and without
    that role. *)
Theorem run_acts_on_due_members s :
  let s0 := log_call WaitUntilGuildAvailable s in
  let s1 := log_call WaitUntilGuildAvailable s0 in
  let unverified := get_role (guild_at P (trace s0)) (Roles_unverified C) in
  let g := guild_at P (trace s1) in
  let now := utcnow_at P (trace s1) in
  ∀ c, c ∈ new_calls s (snd (update_unverified_members C P threshold s)) →
    match c with
    | MemberSend m _ | MemberKick m => m ∈ members g ∧ kick_due C g now m
    | MemberAddRoles m r => m ∈ members g ∧ role_due C g now m ∧ unverified = Some r
    | _ => True
    end.
Proof.
  intros s0 s1 unverified g now. rewrite update_unverified_members_found.
  fold s0 s1 unverified g now. set (found := check_members C g now).
  pose (Φ := acts_within (fst found) (snd found) unverified).
  assert (Hquiet : ∀ c, is_member_action c = false → Φ c) by (by intros []).
  assert (Hrun : emits Φ (report ← role_report C P (fst found) unverified;
                          kicks ← kick_report C P threshold (snd found);
                          request P (SendLogMessage kicks report))).
  { emits_step; [by apply emits_role_report_within|].
    emits_step; [by apply emits_kick_report|]. by emits_step. }
  destruct (Hrun s1) as (t & Ht & Hall).
  intros c. rewrite (new_calls_app _ _ (WaitUntilGuildAvailable :: WaitUntilGuildAvailable :: t)).
  - rewrite !elem_of_cons. intros [->|[->|Hc]]; [done..|].
    rewrite Forall_forall in Hall. specialize (Hall c Hc).
    destruct c; try done; unfold Φ in Hall; simpl in Hall.
    + by apply (check_members_spec C g now).
    + by apply (check_members_spec C g now).
    + destruct Hall as [Hm ->]. apply (check_members_spec C g now) in Hm. tauto.
  - rewrite Ht. unfold s1, s0. simpl. by rewrite <- !app_assoc.
Qed.
End LifecycleMore.

Lemma run_acts_on_due_members_witness :
  MemberAddRoles 3 10
    ∈ new_calls initial_state
        (snd (update_unverified_members demo_constants demo_platform
                default_KICK_CONFIRMATION_THRESHOLD initial_state))
  ∧ role_due demo_constants demo_guild (32 * microseconds_per_day) 3.
Proof.
  assert (Hin : MemberAddRoles 3 10
            ∈ new_calls initial_state
                (snd (update_unverified_members demo_constants demo_platform
                        default_KICK_CONFIRMATION_THRESHOLD initial_state))).
  { apply list_elem_of_In. vm_compute. tauto. }
  split; [exact Hin|].
  apply (run_acts_on_due_members demo_constants demo_platform
           default_KICK_CONFIRMATION_THRESHOLD initial_state _ Hin).
Defined.

Section LifecycleEdges.
Context (C : Constants) (P : Platform) (threshold : Q).

(** X6.  On an unchanged roster the passing of time only escalates: who is
    due for a kick stays due, and who is due for the role stays due for it
    or becomes due for a kick. *)
Theorem check_members_escalation g now now' :
  now ≤ now' →
  snd (check_members C g now) ⊆ snd (check_members C g now')
  ∧ fst (check_members C g now) ⊆ fst (check_members C g now') ∪ snd (check_members C g now').
Proof.
  intros Hlater. split; intros m.
  - rewrite !(proj2 (check_members_spec C g _ m)). unfold kick_due.
    intros (Hm & Hv & Hb & joined & Hj & Hgt). repeat split; try done.
    exists joined. split; [done|lia].
  - rewrite elem_of_union, (proj1 (check_members_spec C g now m)),
      (proj1 (check_members_spec C g now' m)), (proj2 (check_members_spec C g now' m)).
    unfold role_due, kick_due.
    intros (Hm & Hv & Hb & joined & Hj & Hgt & Hle & Hrole).
    destruct (decide (now' - joined > timedelta_days KICKED_AFTER)) as [Hkick|Hnot].
    + right. repeat split; eauto.
    + left. repeat split; try done. exists joined. repeat split; try done; lia.
Qed.

Lemma check_members_nobody_due g now :
  (∀ m, m ∈ members g →
     is_verified C g m = true ∨ bot (member g m) = true
     ∨ joined_at (member g m) = None
     ∨ ∃ joined, joined_at (member g m) = Some joined
                 ∧ now - joined ≤ timedelta_days UNVERIFIED_AFTER) →
  check_members C g now = (∅, ∅).
Proof.
  intros Hnone.
  assert (Hsets : fst (check_members C g now) = ∅ ∧ snd (check_members C g now) = ∅).
  { split; apply set_eq; intros m; rewrite elem_of_empty; split; try done.
    - rewrite (proj1 (check_members_spec C g now m)). unfold role_due.
      intros (Hm & Hv & Hb & joined & Hj & Hgt & _).
      destruct (Hnone m Hm) as [?|[?|[?|(j & Hj' & Hle)]]]; try congruence.
      assert (j = joined) as -> by congruence. lia.
    - rewrite (proj2 (check_members_spec C g now m)). unfold kick_due.
      intros (Hm & Hv & Hb & joined & Hj & Hgt).
      destruct (Hnone m Hm) as [?|[?|[?|(j & Hj' & Hle)]]]; try congruence.
      assert (j = joined) as -> by congruence.
      unfold timedelta_days, KICKED_AFTER, UNVERIFIED_AFTER in *. lia. }
  destruct (check_members C g now). simpl in Hsets. by destruct Hsets as [-> ->].
Qed.

(** X7.  When every member of the roster is verified, a bot, without a join
    date or at most 3 days in the guild, and the unverified role exists, a
    run asks nothing of the authorizer and makes no request but its summary,
    which reports no one to kick and no one to give the role. *)
Theorem run_with_nobody_due s :
  let s0 := log_call WaitUntilGuildAvailable s in
  let s1 := log_call WaitUntilGuildAvailable s0 in
  let g := guild_at P (trace s1) in
  let now := utcnow_at P (trace s1) in
  (∀ m, m ∈ members g →
     is_verified C g m = true ∨ bot (member g m) = true
     ∨ joined_at (member g m) = None
     ∨ ∃ joined, joined_at (member g m) = Some joined
                 ∧ now - joined ≤ timedelta_days UNVERIFIED_AFTER) →
  Roles_unverified C ∈ guild_roles (guild_at P (trace s0)) →
  update_unverified_members C P threshold s
  = request P (SendLogMessage NoUsersToKick NoUsersForRole) s1.
Proof.
  intros s0 s1 g now Hnone Hrole. rewrite update_unverified_members_found.
  fold s0 s1 g now. rewrite (check_members_nobody_due g now Hnone). cbn [fst snd].
  unfold role_report, kick_report, get_role.
  rewrite !decide_True by done. reflexivity.
Qed.

Lemma send_requests_loop_without_role (l : list Member) n bad s :
  send_requests_loop ((λ m, role_request C P m None) <$> l) n bad s
  = (Ok ((n + length l)%nat, bad), s)
  ∨ send_requests_loop ((λ m, role_request C P m None) <$> l) n bad s
    = (Raise AttributeError, s).
Proof.
  revert n. induction l as [|m l IH]; intros n; simpl.
  - left. by rewrite Nat.add_0_r.
  - assert (Hhead : role_request C P m None s = (Ok (), s)
                    ∨ role_request C P m None s = (Raise AttributeError, s)).
    { unfold role_request. rewrite bind_eq. unfold pydis.
      destruct (is_verified C (guild_at P (trace s)) m); [by left|by right]. }
    rewrite bind_eq. unfold catch.
    destruct Hhead as [-> | ->]; cbv beta iota; [|by right].
    destruct (IH (n + 1)%nat) as [Hrest|Hrest]; [left|by right].
    etransitivity; [exact Hrest|]. do 3 f_equal. lia.
Qed.

(** X8.  When the guild has no unverified role, a run fails with
    [AttributeError] right after its classification: it gives no role, asks
    nothing of the authorizer, kicks no one and sends no summary. *)
Theorem run_without_unverified_role s :
  let s0 := log_call WaitUntilGuildAvailable s in
  let s1 := log_call WaitUntilGuildAvailable s0 in
  Roles_unverified C ∉ guild_roles (guild_at P (trace s0)) →
  update_unverified_members C P threshold s = (Raise AttributeError, s1).
Proof.
  intros s0 s1 Hmissing. rewrite update_unverified_members_found. fold s0 s1.
  unfold get_role. rewrite decide_False by done.
  set (found := check_members _ _ _). rewrite bind_eq.
  assert (role_report C P (fst found) None s1 = (Raise AttributeError, s1)) as ->; [|done].
  unfold role_report. case_decide; [done|].
  rewrite bind_eq. unfold _give_role, _send_requests. rewrite !bind_eq.
  by destruct (send_requests_loop_without_role (elements (fst found)) 0 ∅ s1) as [->| ->].
Qed.
End LifecycleEdges.

Lemma check_members_escalation_witness :
  snd (check_members demo_constants demo_guild (32 * microseconds_per_day))
  ⊆ snd (check_members demo_constants demo_guild (40 * microseconds_per_day)).
Proof.
  apply (check_members_escalation demo_constants demo_guild
           (32 * microseconds_per_day) (40 * microseconds_per_day)).
  vm_compute. discriminate.
Defined.

Lemma run_with_nobody_due_witness :
  update_unverified_members demo_constants settled_platform
    default_KICK_CONFIRMATION_THRESHOLD initial_state
  = request settled_platform (SendLogMessage NoUsersToKick NoUsersForRole) demo_checked.
Proof.
  apply (run_with_nobody_due demo_constants settled_platform
           default_KICK_CONFIRMATION_THRESHOLD initial_state).
  - intros m Hm. apply list_elem_of_In in Hm. vm_compute in Hm.
    destruct Hm as [Hm|[Hm|[]]]; rewrite <- Hm.
    + left. vm_compute. reflexivity.
    + right. left. reflexivity.
  - apply list_elem_of_In. vm_compute. tauto.
Defined.

Lemma run_without_unverified_role_witness :
  update_unverified_members demo_constants roleless_platform
    default_KICK_CONFIRMATION_THRESHOLD initial_state
  = (Raise AttributeError, demo_checked).
Proof.
  apply (run_without_unverified_role demo_constants roleless_platform
           default_KICK_CONFIRMATION_THRESHOLD initial_state).
  intros Hin. apply list_elem_of_In in Hin. vm_compute in Hin.
  destruct Hin as [Hin|[Hin|[]]]; discriminate Hin.
Defined.

(** ** Further properties: authorizer *)

Section AuthorizerMore.
Context (C : Constants) (P : Platform) (threshold : Q).

Lemma ratio_le (n n' g : Z) :
  n' ≤ n → 0 < g → (inject_Z n' / inject_Z g <= inject_Z n / inject_Z g)%Q.
Proof.
  intros Hn Hg. unfold Qdiv. apply Qmult_le_compat_r.
  - unfold Qle, inject_Z. simpl. lia.
  - apply Qinv_le_0_compat. unfold Qle, inject_Z. simpl. lia.
Qed.

(** X9.  Approval without a prompt is downward closed: in a state where
    the authorizer approves [n] members on its own, it approves any smaller
    count on its own as well. *)
Theorem auto_approval_downward n n' s :
  n' ≤ n → auto_approved C P threshold n s → auto_approved C P threshold n' s.
Proof.
  intros Hle Hauto.
  set (len := Z.of_nat (length (members (guild_at P (trace s ++ [WaitUntilGuildAvailable]))))).
  assert (Hlen : len ≠ 0).
  { intros Hzero. destruct Hauto as [Hr _]. revert Hr.
    unfold _verify_kick. unfold_M. simpl. fold len. by rewrite decide_True. }
  assert (Hbelow : Qlt_bool (inject_Z n / inject_Z len) threshold = true).
  { destruct (Qlt_bool _ _) eqn:Hlt; [done|].
    by destruct (verify_kick_above C P threshold n s Hlen Hlt). }
  assert (Hbelow' : Qlt_bool (inject_Z n' / inject_Z len) threshold = true).
  { apply Qlt_bool_iff. eapply Qle_lt_trans; [|by apply Qlt_bool_iff].
    apply ratio_le; [done|]. unfold len in *. lia. }
  unfold auto_approved. rewrite (verify_kick_below C P threshold n' s Hlen Hbelow').
  split; [done|]. rewrite (new_calls_app _ _ [WaitUntilGuildAvailable]) by done.
  by constructor.
Qed.

End AuthorizerMore.

Lemma auto_approval_downward_witness :
  auto_approved demo_constants large_platform default_KICK_CONFIRMATION_THRESHOLD 3
    initial_state.
Proof.
  apply (auto_approval_downward demo_constants large_platform
           default_KICK_CONFIRMATION_THRESHOLD 5 3 initial_state).
  - lia.
  - split; [vm_compute; reflexivity|]. vm_compute. repeat constructor.
Defined.


(** ** Further properties: reminder task *)

Section ReminderMore.
Context (C : Constants) (P : Platform).

(** A reminder run that succeeds ends with the write of the cursor. *)
Lemma ping_unverified_succeeded s s1 :
  ping_unverified C P s = (Ok (), s1) →
  ∃ h,
    trace s1 = h ++ [ChannelSend (Channels_verification C) REMINDER_MESSAGE;
                     CacheSet "last_reminder"
                       (sent_message P
                          (h ++ [ChannelSend (Channels_verification C) REMINDER_MESSAGE]))]
    ∧ task_cache s1
      = <["last_reminder" :=
            sent_message P (h ++ [ChannelSend (Channels_verification C) REMINDER_MESSAGE])]>
          (task_cache s).
Proof.
  unfold ping_unverified, get_channel. unfold_M. simpl.
  repeat (case_match; simplify_eq/=; try done); intros [= <-]; simpl;
    eexists; (split; [rewrite <- app_assoc; reflexivity|]); done.
Qed.

(** X11.  The cursor ties consecutive reminder runs together: after a run
    that succeeded, the next run, if it finds the verification channel,
    starts by asking to delete the very message the first one sent. *)
Theorem next_ping_deletes_previous s s1 :
  ping_unverified C P s = (Ok (), s1) →
  Channels_verification C ∈ guild_channels (guild_at P (trace s1 ++ [WaitUntilGuildAvailable])) →
  ∃ h sent,
    trace s1 = h ++ [ChannelSend (Channels_verification C) REMINDER_MESSAGE;
                     CacheSet "last_reminder" sent]
    ∧ sent = sent_message P (h ++ [ChannelSend (Channels_verification C) REMINDER_MESSAGE])
    ∧ take 3 (new_calls s1 (snd (ping_unverified C P s1)))
      = [WaitUntilGuildAvailable; CacheGet "last_reminder";
         DeleteMessage (Channels_verification C) sent].
Proof.
  intros Hfirst Hch. destruct (ping_unverified_succeeded s s1 Hfirst) as (h & Htrace & Hcache).
  eexists h, _. split; [exact Htrace|]. split; [reflexivity|].
  unfold ping_unverified. unfold_M. simpl.
  unfold get_channel. rewrite decide_True by done.
  rewrite Hcache, lookup_insert_eq. simpl.
  unfold new_calls.
  repeat (case_match; simplify_eq/=); flatten_trace; rewrite drop_app_length;
    reflexivity.
Qed.

(** X12.  The cursor survives a restart: started again after a reminder run
    that succeeded, the task sleeps, before its first run, for what is left
    of the 28 hours counted from the time carried by the message that run
    sent. *)
Theorem restart_after_ping s s1 :
  ping_unverified C P s = (Ok (), s1) →
  ∃ h sent secs,
    trace s1 = h ++ [ChannelSend (Channels_verification C) REMINDER_MESSAGE;
                     CacheSet "last_reminder" sent]
    ∧ sent = sent_message P (h ++ [ChannelSend (Channels_verification C) REMINDER_MESSAGE])
    ∧ _before_first_ping P s1
      = (Ok (), log_call (Sleep secs) (log_call (CacheGet "last_reminder") s1))
    ∧ (secs == inject_Z (Z.max 0 (timedelta_hours 28
                 - (utcnow_at P (trace s1 ++ [CacheGet "last_reminder"])
                    - snowflake_time sent))) / 1000000)%Q.
Proof.
  intros Hfirst. destruct (ping_unverified_succeeded s s1 Hfirst) as (h & Htrace & Hcache).
  eexists h, _, _. split; [exact Htrace|]. split; [reflexivity|].
  unfold _before_first_ping. rewrite bind_eq. unfold cache_get.
  rewrite Hcache, lookup_insert_eq.
  rewrite bind_eq. unfold utcnow, perform. cbv beta iota.
  split; [reflexivity|]. apply max_total_seconds.
Qed.

(** X13.  The sleep before the first run is never negative, and never
    longer than the 28 hours of the interval unless the clock is behind the
    time carried by the cursor. *)
Theorem before_first_ping_sleep_bounds s secs :
  Sleep secs ∈ new_calls s (snd (_before_first_ping P s)) →
  (0 <= secs)%Q
  ∧ ∀ last, task_cache s !! "last_reminder" = Some last →
      snowflake_time last ≤ utcnow_at P (trace s ++ [CacheGet "last_reminder"]) →
      (secs <= 28 * 3600)%Q.
Proof.
  unfold _before_first_ping. rewrite bind_eq. unfold cache_get.
  destruct (task_cache s !! "last_reminder") as [last|] eqn:Hcursor.
  - rewrite bind_eq. unfold utcnow, perform. cbv beta iota.
    rewrite (new_calls_app _ _ [CacheGet "last_reminder"; Sleep _])
      by (simpl; by rewrite <- app_assoc).
    rewrite !elem_of_cons, elem_of_nil. intros [?|[[= ->]|[]]]; [done|].
    split; [apply Q.le_max_r|].
    intros last' [= <-] Hclock. simpl trace.
    set (to_sleep := timedelta_hours REMINDER_FREQUENCY - _).
    apply Q.max_lub; [|done].
    unfold total_seconds, Qle. simpl.
    unfold to_sleep, timedelta_hours, REMINDER_FREQUENCY in *. lia.
  - simpl. rewrite (new_calls_app _ _ [CacheGet "last_reminder"]) by done.
    rewrite list_elem_of_singleton. done.
Qed.
End ReminderMore.

Lemma next_ping_deletes_previous_witness :
  ∃ sent,
    take 3 (new_calls demo_reminded
              (snd (ping_unverified demo_constants demo_platform demo_reminded)))
    = [WaitUntilGuildAvailable; CacheGet "last_reminder"; DeleteMessage 101 sent].
Proof.
  destruct (next_ping_deletes_previous demo_constants demo_platform initial_state
              demo_reminded) as (h & sent & _ & _ & Hnext).
  - vm_compute. reflexivity.
  - apply list_elem_of_In. vm_compute. tauto.
  - exists sent. exact Hnext.
Defined.

Lemma restart_after_ping_witness :
  ∃ secs,
    _before_first_ping demo_platform demo_reminded
    = (Ok (), log_call (Sleep secs) (log_call (CacheGet "last_reminder") demo_reminded)).
Proof.
  destruct (restart_after_ping demo_constants demo_platform initial_state demo_reminded)
    as (h & sent & secs & _ & _ & Hrun & _).
  - vm_compute. reflexivity.
  - exists secs. exact Hrun.
Defined.

Lemma before_first_ping_sleep_bounds_witness :
  (0 <= Qmax (total_seconds (timedelta_hours 18)) 0)%Q.
Proof.
  apply (before_first_ping_sleep_bounds restart_platform reminded_state).
  apply list_elem_of_In. vm_compute. tauto.
Defined.

(** ** Further properties: the task cache *)

Section KeepsCache.
Context (C : Constants) (P : Platform) (threshold : Q).

Lemma keeps_ret {A} (a : A) : keeps_cache (mret a).
Proof. done. Qed.

Lemma keeps_raise {A} e : keeps_cache (raise e : M A).
Proof. done. Qed.

Lemma keeps_bind {A B} (m : M A) (f : A → M B) :
  keeps_cache m → (∀ a, keeps_cache (f a)) → keeps_cache (m ≫= f).
Proof.
  intros Hm Hf s. rewrite bind_eq. specialize (Hm s).
  destruct (m s) as [[a|e] s1]; simpl in *; [|done]. by rewrite Hf.
Qed.

Lemma keeps_attr {A} (o : option A) : keeps_cache (attr o).
Proof. by destruct o. Qed.

Lemma keeps_catch {A} (m : M A) : keeps_cache m → keeps_cache (catch m).
Proof. intros Hm s. unfold catch. specialize (Hm s). by destruct (m s). Qed.

Lemma keeps_suppress f m : keeps_cache m → keeps_cache (suppress f m).
Proof.
  intros Hm s. unfold suppress. specialize (Hm s).
  destruct (m s) as [[[]|e] s1]; [done|]. by destruct (f e).
Qed.

Lemma keeps_for_each {A} (l : list A) body :
  (∀ x, keeps_cache (body x)) → keeps_cache (for_each l body).
Proof.
  intros Hbody. induction l as [|x l IH]; [done|].
  simpl. apply keeps_bind; auto.
Qed.

Lemma keeps_true_div a b : keeps_cache (true_div a b).
Proof. unfold true_div. by case_decide. Qed.

Lemma keeps_perform c : keeps_cache (perform c).
Proof. done. Qed.

Lemma keeps_request c : keeps_cache (request P c).
Proof. intros s. unfold request. by destruct (http_status _ _ _). Qed.

Lemma keeps_channel_send ch content : keeps_cache (channel_send P ch content).
Proof. apply keeps_bind; [apply keeps_request|done]. Qed.

Ltac keeps_step :=
  match goal with
  | |- keeps_cache (mbind _ _) => apply keeps_bind; [|intros ?]
  | |- keeps_cache (mret _) => apply keeps_ret
  | |- keeps_cache (raise _) => apply keeps_raise
  | |- keeps_cache (attr _) => apply keeps_attr
  | |- keeps_cache (catch _) => apply keeps_catch
  | |- keeps_cache (suppress _ _) => apply keeps_suppress
  | |- keeps_cache (for_each _ _) => apply keeps_for_each; intros ?
  | |- keeps_cache (true_div _ _) => apply keeps_true_div
  | |- keeps_cache (perform _) => apply keeps_perform
  | |- keeps_cache (request _ _) => apply keeps_request
  | |- keeps_cache (channel_send _ _ _) => apply keeps_channel_send
  | |- keeps_cache (pydis _) => done
  | |- keeps_cache (utcnow _) => done
  | |- keeps_cache (wait_for _ _ _) => done
  | |- keeps_cache (if ?b then _ else _) => destruct b
  | |- keeps_cache (match ?x with _ => _ end) => destruct x
  end.

Lemma keeps_verify_kick n : keeps_cache (_verify_kick C P threshold n).
Proof. unfold _verify_kick. repeat keeps_step. Qed.

Lemma keeps_send_requests_loop coros n bad :
  Forall keeps_cache coros → keeps_cache (send_requests_loop coros n bad).
Proof.
  intros Hall. revert n bad.
  induction Hall as [|coro rest Hcoro _ IH]; intros n bad; simpl; [done|].
  repeat keeps_step; auto.
Qed.

Lemma keeps_send_requests coros :
  Forall keeps_cache coros → keeps_cache (_send_requests coros).
Proof.
  intros Hall. unfold _send_requests.
  keeps_step; [by apply keeps_send_requests_loop|]. by repeat keeps_step.
Qed.

Lemma keeps_kick_members members : keeps_cache (_kick_members C P members).
Proof.
  unfold _kick_members. keeps_step; [|by repeat keeps_step].
  apply keeps_send_requests, Forall_fmap, Forall_forall. intros m _.
  change (keeps_cache (kick_request C P m)). unfold kick_request. repeat keeps_step.
Qed.

Lemma keeps_give_role members role : keeps_cache (_give_role C P members role).
Proof.
  unfold _give_role. keeps_step; [|by repeat keeps_step].
  apply keeps_send_requests, Forall_fmap, Forall_forall. intros m _.
  change (keeps_cache (role_request C P m role)). unfold role_request. repeat keeps_step.
Qed.

Lemma keeps_update_unverified_members :
  keeps_cache (update_unverified_members C P threshold).
Proof.
  unfold update_unverified_members, _check_members, role_report, kick_report.
  repeat keeps_step; auto using keeps_give_role, keeps_verify_kick, keeps_kick_members.
Qed.

(** X14.  The tasks leave the setting of the commands alone.  A run of the
    lifecycle task and the wait before the first reminder do not write to
    the task cache at all; a reminder run writes nothing but its cursor. *)
Theorem tasks_keep_setting s :
  task_cache (snd (update_unverified_members C P threshold s)) = task_cache s
  ∧ task_cache (snd (_before_first_ping P s)) = task_cache s
  ∧ ∀ key, key ≠ "last_reminder" →
      task_cache (snd (ping_unverified C P s)) !! key = task_cache s !! key.
Proof.
  split; [apply keeps_update_unverified_members|]. split.
  - unfold _before_first_ping. unfold_M. by repeat (case_match; simplify_eq/=).
  - intros key Hkey. unfold ping_unverified, get_channel. unfold_M. simpl.
    repeat (case_match; simplify_eq/=); try done; by rewrite lookup_insert_ne.
Qed.
End KeepsCache.

(** ** Further properties: listeners and commands *)

Lemma new_actions_app s s' t : actions s' = actions s ++ t → new_actions s s' = t.
Proof. unfold new_actions. intros ->. by rewrite drop_app_length. Qed.

(** Unfold the primitives of [F], to run a computation symbolically. *)
Ltac unfold_F :=
  unfold get_context in *;
  unfold act, ask, member_now, datetime_utcnow, running, settings_get, settings_set,
    suppressing, try_finally in *;
  unfold mbind, F_bind, mret, F_ret in *.

(** Bring the histories in the goal and the hypotheses to the form
    [actions s ++ [a1; ...; an]]. *)
Ltac flatten_actions :=
  unfold log_action in *; cbn [actions settings] in *;
  rewrite <- ?app_assoc in *; cbn [app] in *.

Section TaskManagement.
Context (C : Constants) (W : Frontend).

Lemma start_cmd_settings ctx s :
  settings (snd (start_cmd W ctx s)) = <["tasks_running" := 1]> (settings s).
Proof. unfold start_cmd. unfold_F. by repeat (case_match; simplify_eq/=). Qed.

Lemma stop_cmd_settings ctx s :
  settings (snd (stop_cmd W ctx s)) = <["tasks_running" := 0]> (settings s).
Proof. unfold stop_cmd. unfold_F. by repeat (case_match; simplify_eq/=). Qed.

Lemma maybe_start_tasks_restart s :
  actions (snd (maybe_start_tasks (restart s)))
  = Core (CacheGet "tasks_running")
    :: if truthy (settings s !! "tasks_running")
       then [LoopStart UpdateUnverifiedMembers; LoopStart PingUnverified] else [].
Proof.
  unfold maybe_start_tasks, restart. unfold_F. cbn [settings actions log_action].
  by destruct (truthy _).
Qed.

(** X15.  The setting survives a restart.  What a new process starts, once
    it has read the cache, is both loops after a start command and nothing
    after a stop command, whether or not the confirmation of the command
    could be sent; it is nothing on a cache never written, and unloading
    the cog does not change it. *)
Theorem task_setting_survives_restart ctx s :
  let boot s' := actions (snd (maybe_start_tasks (restart s'))) in
  boot (snd (start_cmd W ctx s))
    = [Core (CacheGet "tasks_running");
       LoopStart UpdateUnverifiedMembers; LoopStart PingUnverified]
  ∧ boot (snd (stop_cmd W ctx s)) = [Core (CacheGet "tasks_running")]
  ∧ boot {| actions := actions s; settings := ∅ |} = [Core (CacheGet "tasks_running")]
  ∧ boot (snd (cog_unload s)) = boot s.
Proof.
  cbv beta zeta. rewrite !maybe_start_tasks_restart.
  rewrite start_cmd_settings, stop_cmd_settings, !lookup_insert_eq.
  cbn [settings]. rewrite lookup_empty. repeat split.
Qed.

(** X16.  Only the start and stop commands write to the task cache, and
    only the key of the setting: the cursor of the reminder task is out of
    the reach of every listener and command. *)
Theorem only_start_and_stop_write_settings K ctx message guild_id m s :
  settings (snd (start_cmd W ctx s)) = <["tasks_running" := 1]> (settings s)
  ∧ settings (snd (stop_cmd W ctx s)) = <["tasks_running" := 0]> (settings s)
  ∧ Forall (λ run : F unit, settings (snd (run s)) = settings s)
      [maybe_start_tasks; cog_unload; status_cmd C W ctx;
       on_member_join C W guild_id m; on_message C K W message;
       accept_command C K W ctx; subscribe_command K W ctx;
       unsubscribe_command K W ctx].
Proof.
  split; [apply start_cmd_settings|]. split; [apply stop_cmd_settings|].
  repeat constructor.
  - unfold maybe_start_tasks. unfold_F. by repeat (case_match; simplify_eq/=).
  - unfold status_cmd. unfold_F. by repeat (case_match; simplify_eq/=).
  - unfold on_member_join. unfold_F. by repeat (case_match; simplify_eq/=).
  - unfold on_message. unfold_F. by repeat (case_match; simplify_eq/=).
  - unfold accept_command, _bump_verified_stats. unfold_F.
    by repeat (case_match; simplify_eq/=).
  - unfold subscribe_command. unfold_F. by repeat (case_match; simplify_eq/=).
  - unfold unsubscribe_command. unfold_F. by repeat (case_match; simplify_eq/=).
Qed.
End TaskManagement.

Section Listeners.
Context (C : Constants) (K : CommandConstants) (W : Frontend).

(** X17.  A member who joins another guild gets nothing.  A member who
    joins the guild of the constants gets one direct message and nothing
    else; the listener fails only when that message is refused with a
    status other than 403, and then with that error. *)
Theorem on_member_join_outcome guild_id m s :
  let r := on_member_join C W guild_id m s in
  let dm := DirectMessage m ON_JOIN_MESSAGE in
  if decide (guild_id = Guild_id C) then
    snd r = log_action dm s
    ∧ fst r = match response W (actions s) dm with
              | Some status =>
                  if decide (status = 403) then Ok () else Raise (HTTPException status)
              | None => Ok ()
              end
  else r = (Ok (), s).
Proof.
  cbv zeta. unfold on_member_join. unfold_F.
  case_decide.
  - rewrite bool_decide_false by naive_solver.
    destruct (response _ _ _) as [status|]; [|done]. simpl.
    case_bool_decide; by case_decide.
  - by rewrite bool_decide_true.
Qed.

Lemma mentions_nonempty {A B} (l : list A) (k : list B) :
  nonempty l || nonempty k = true → l ≠ [] ∨ k ≠ [].
Proof. destruct l, k; simpl; intros; try done; auto. Qed.

(** X18.  The listener acts only on messages in the verification channel
    whose content is not the reminder.  There, all it ever does is: alert
    the moderators about a message with mentions, look up the command,
    send the instructions, and delete the very message it received.  It
    neither answers nor deletes a message that invokes the accept command;
    it changes no role, writes no direct message and leaves the tasks and
    the cache alone. *)
Theorem on_message_scope message s :
  let r := on_message C K W message s in
  (message_channel message ≠ Channels_verification C
   ∨ message_content message = REMINDER_MESSAGE_text C → r = (Ok (), s))
  ∧ Forall (message_action K W message) (new_actions s (snd r)).
Proof.
  cbv zeta. split.
  - unfold on_message. intros [Hch|Hreminder].
    + by rewrite bool_decide_true.
    + case_bool_decide; [done|]. by rewrite bool_decide_true.
  - unfold on_message. unfold_F.
    repeat (case_match; simplify_eq/=);
      repeat match goal with H : bool_decide _ = _ |- _ =>
        first [apply bool_decide_eq_false in H | apply bool_decide_eq_true in H] end;
      try (unfold new_actions; rewrite drop_ge by done; constructor);
      flatten_actions;
      (erewrite new_actions_app; [|simpl; reflexivity]);
      repeat first [apply Forall_nil | apply Forall_cons; split]; simpl;
      repeat split; auto using mentions_nonempty.
Qed.

End Listeners.


Section Commands.
Context (C : Constants) (K : CommandConstants) (W : Frontend).

(** X20.  The global check and the listener agree on the accept command.
    When the check lets a command through, for an author who is none of the
    moderators if it is in the verification channel, and the author is not a
    bot, the listener neither answers the message nor deletes it: it does
    no more than alert the moderators and look up the command. *)
Theorem gate_and_listener_agree without_role_check message s :
  let ctx := {| ctx_message := message_id message;
                ctx_channel := message_channel message;
                ctx_author := message_author message;
                ctx_command := command_of W message |} in
  (message_channel message = Channels_verification C →
   without_role_check ctx (MODERATION_ROLES K) = true) →
  bot (member (cached_guild W (actions s)) (message_author message)) = false →
  bot_check C K without_role_check ctx = Ok true →
  Forall (λ a, match a with ModAlert _ _ _ _ | GetContext _ => True | _ => False end)
    (new_actions s (snd (on_message C K W message s))).
Proof.
  intros ctx Hstaff Hbot. unfold bot_check. cbn [ctx_channel ctx_command ctx].
  unfold on_message. case_bool_decide as Hch.
  - rewrite Hstaff by done. cbn [andb].
    destruct (command_of W message) as [name|] eqn:Hcommand; [|done].
    intros [= Hname%bool_decide_eq_true]. subst name.
    rewrite bool_decide_false by naive_solver.
    case_bool_decide;
      [unfold new_actions; simpl; rewrite drop_ge by done; constructor|].
    unfold_F. rewrite Hbot. cbv beta iota. cbn [ctx_command]. rewrite Hcommand.
    rewrite (bool_decide_true (Some "accept" = Some "accept")) by done.
    repeat (case_match; simplify_eq/=);
      try (unfold new_actions; rewrite drop_ge by done; constructor);
      flatten_actions;
      (erewrite new_actions_app; [|simpl; reflexivity]);
      by repeat constructor.
  - intros _. rewrite bool_decide_true by done.
    unfold new_actions. simpl. rewrite drop_ge by done. constructor.
Qed.

Lemma elem_of_list_unverified (x : Z) (l : list Z) : ¬ (x ∉ l) → x ∈ l.
Proof. intros Hnot. by destruct (decide (x ∈ l)). Qed.

Lemma F_bind_eq {A B} (m : F A) (f : A → F B) s :
  (m ≫= f) s = match m s with (Ok a, s') => f a s' | (Raise e, s') => (Raise e, s') end.
Proof. reflexivity. Qed.

Lemma ask_eq a s :
  ask W a s = match response W (actions s) a with
              | None => (Ok (), log_action a s)
              | Some status => (Raise (HTTPException status), log_action a s)
              end.
Proof. reflexivity. Qed.

Lemma counted_as_total now joined member_roles :
  ∃ key, counted_as C now joined member_roles key.
Proof.
  unfold counted_as.
  destruct (decide (now - joined < timedelta_hours 24)); [by eexists; left|].
  destruct (decide (Roles_unverified C ∈ member_roles)).
  - eexists. right. right. split_and!; [done|lia|done].
  - eexists. right. left. split_and!; [done|lia|done].
Qed.

(** The end of [accept_command]: the direct message and the cleanup. *)
Lemma accept_finally_run ctx s :
  let dm := DirectMessage (ctx_author ctx) VERIFIED_MESSAGE in
  let ignore := ModLogIgnore (ctx_message ctx) in
  let delete := Core (DeleteMessage (ctx_channel ctx) (ctx_message ctx)) in
  let sent :=
    match response W (actions s) dm with
    | Some status => if decide (status = 403) then Ok () else Raise (HTTPException status)
    | None => Ok ()
    end in
  try_finally (suppressing is_Forbidden (ask W dm))
    (suppressing is_NotFound (act ignore;; ask W delete)) s
  = (match response W (actions s ++ [dm; ignore]) delete with
     | Some status => if decide (status = 404) then sent else Raise (HTTPException status)
     | None => sent
     end,
     {| actions := actions s ++ [dm; ignore; delete]; settings := settings s |}).
Proof.
  cbv zeta. unfold_F. flatten_actions.
  destruct (response W (actions s) _) as [status|]; simpl;
    [case_bool_decide; case_decide; try done|];
    simpl; flatten_actions;
    (destruct (response W (actions s ++ _) _) as [status'|]; simpl;
     [case_bool_decide; case_decide; try done|]);
    flatten_actions; done.
Qed.

(** The beginning of [accept_command], up to the role updates, followed by
    any [final]. *)
Lemma accept_roles_run ctx (final : F unit) s :
  let add := Core (MemberAddRoles (ctx_author ctx) (Roles_verified K)) in
  let remove := RemoveRoles (ctx_author ctx) (Roles_unverified C) in
  let h := actions s ++ [add] in
  let author := member (cached_guild W h) (ctx_author ctx) in
  let after t := {| actions := actions s ++ t; settings := settings s |} in
  let run :=
    (ask W add;;
     _bump_verified_stats C W (ctx_author ctx);;
     author ← member_now W (ctx_author ctx);
     (if bool_decide (Roles_unverified C ∈ roles author) then ask W remove else mret ());;
     final) s in
  ∃ stats,
    (stats = [] ∧ joined_at author = None
     ∨ ∃ joined key, stats = [Core (StatsIncr key 1)] ∧ joined_at author = Some joined
         ∧ counted_as C (clock W h) joined (roles author) key)
    ∧ ((∃ status, run = (Raise (HTTPException status), after [add]))
       ∨ response W (actions s) add = None
         ∧ ((∃ status, run = (Raise (HTTPException status), after (add :: stats ++ [remove])))
            ∨ run = final (after (add :: stats ++ [remove]))
            ∨ run = final (after (add :: stats)))).
Proof.
  cbv zeta. rewrite F_bind_eq, ask_eq.
  destruct (response W (actions s) _) as [status|] eqn:Hadd.
  { destruct (joined_at (member (cached_guild W
        (actions s ++ [Core (MemberAddRoles (ctx_author ctx) (Roles_verified K))]))
        (ctx_author ctx))) as [joined|] eqn:Hjoined.
    - destruct (counted_as_total
        (clock W (actions s ++ [Core (MemberAddRoles (ctx_author ctx) (Roles_verified K))]))
        joined
        (roles (member (cached_guild W
           (actions s ++ [Core (MemberAddRoles (ctx_author ctx) (Roles_verified K))]))
           (ctx_author ctx)))) as [key Hkey].
      exists [Core (StatsIncr key 1)]. split; [right; by eexists _, _|].
      left. by eexists.
    - exists []. split; [by left|]. left. by eexists. }
  unfold _bump_verified_stats. unfold_F. flatten_actions.
  repeat (case_match; simplify_eq/=); flatten_actions.
  all: repeat match goal with H : bool_decide _ = _ |- _ =>
         first [apply bool_decide_eq_false in H | apply bool_decide_eq_true in H] end.
  all: eexists; split;
    [ first [ left; done
            | right; eexists _, _; split_and!; [reflexivity|reflexivity|];
              unfold counted_as;
              first [ left; split; [reflexivity|lia]
                    | right; left; split_and!; [reflexivity|lia|done]
                    | right; right; split_and!;
                        [reflexivity|lia|by apply elem_of_list_unverified] ] ]
    | right; split; [done|]; cbn [app];
      first [ left; by eexists | right; left; reflexivity | right; right; reflexivity ] ].
Qed.

(** X21.  A run of the accept command stops at a role update that the
    platform refuses, or else goes on to the direct message and, whatever
    comes of that, registers the accept message with the moderation log and
    asks to delete it.  A refusal of the direct message with status 403 and
    a deletion answered 404 are no errors; any other failure of the
    deletion is the error of the run, and before it any other failure of
    the direct message. *)
Theorem accept_command_cleans_up ctx s :
  let r := accept_command C K W ctx s in
  let t := new_actions s (snd r) in
  let dm := DirectMessage (ctx_author ctx) VERIFIED_MESSAGE in
  let delete := Core (DeleteMessage (ctx_channel ctx) (ctx_message ctx)) in
  match last t with
  | Some (Core (MemberAddRoles _ _)) | Some (RemoveRoles _ _) =>
      ∃ status, fst r = Raise (HTTPException status)
  | _ =>
      ∃ t0, t = t0 ++ [dm; ModLogIgnore (ctx_message ctx); delete]
        ∧ let sent :=
            match response W (actions s ++ t0) dm with
            | Some status =>
                if decide (status = 403) then Ok () else Raise (HTTPException status)
            | None => Ok ()
            end in
          fst r =
            match response W (actions s ++ t0 ++ [dm; ModLogIgnore (ctx_message ctx)])
                    delete with
            | Some status =>
                if decide (status = 404) then sent else Raise (HTTPException status)
            | None => sent
            end
  end.
Proof.
  cbv zeta. unfold accept_command.
  destruct (accept_roles_run ctx
    (try_finally
       (suppressing is_Forbidden (ask W (DirectMessage (ctx_author ctx) VERIFIED_MESSAGE)))
       (suppressing is_NotFound
          (act (ModLogIgnore (ctx_message ctx));;
           ask W (Core (DeleteMessage (ctx_channel ctx) (ctx_message ctx)))))) s)
    as (stats & _ & Hrun).
  cbv zeta in Hrun.
  destruct Hrun as [[status ->]|[_ [[status ->]|[->| ->]]]].
  - rewrite (new_actions_app _ _ [Core (MemberAddRoles (ctx_author ctx) (Roles_verified K))])
      by done.
    by eexists.
  - erewrite new_actions_app by done.
    rewrite app_comm_cons, last_snoc. by eexists.
  - rewrite accept_finally_run. cbn [fst snd actions].
    erewrite new_actions_app by (cbn [actions]; rewrite <- app_assoc; reflexivity).
    rewrite last_app. cbn [last].
    eexists. split; [reflexivity|]. by rewrite <- !app_assoc.
  - rewrite accept_finally_run. cbn [fst snd actions].
    erewrite new_actions_app by (cbn [actions]; rewrite <- app_assoc; reflexivity).
    rewrite last_app. cbn [last].
    eexists. split; [reflexivity|]. by rewrite <- !app_assoc.
Qed.

(** X22.  The accept command counts the member before it removes the
    unverified role.  Every run begins with the request for the verified
    role; a counter is bumped at most once, right after that request was
    granted, by one, and only for a member whose join date is known; its
    category is read from the clock and the roles of that moment.  The
    unverified role is the only one ever removed, from the author, and
    never before the counter. *)
Theorem accept_counts_before_removal ctx s :
  let t := new_actions s (snd (accept_command C K W ctx s)) in
  let add := Core (MemberAddRoles (ctx_author ctx) (Roles_verified K)) in
  let h := actions s ++ [add] in
  let author := member (cached_guild W h) (ctx_author ctx) in
  head t = Some add
  ∧ (∀ i key n, t !! i = Some (Core (StatsIncr key n)) →
       i = 1%nat ∧ n = 1%nat ∧ response W (actions s) add = None
       ∧ ∃ joined, joined_at author = Some joined
           ∧ counted_as C (clock W h) joined (roles author) key)
  ∧ (∀ i m role, t !! i = Some (RemoveRoles m role) →
       m = ctx_author ctx ∧ role = Roles_unverified C
       ∧ (i = 1%nat ∧ joined_at author = None
          ∨ i = 2%nat ∧ ∃ key, t !! 1%nat = Some (Core (StatsIncr key 1)))).
Proof.
  cbv zeta. unfold accept_command.
  destruct (accept_roles_run ctx
    (try_finally
       (suppressing is_Forbidden (ask W (DirectMessage (ctx_author ctx) VERIFIED_MESSAGE)))
       (suppressing is_NotFound
          (act (ModLogIgnore (ctx_message ctx));;
           ask W (Core (DeleteMessage (ctx_channel ctx) (ctx_message ctx)))))) s)
    as (stats & Hstats & Hrun).
  cbv zeta in Hrun, Hstats.
  destruct Hrun as [[status ->]|[Hadd [[status ->]|[->| ->]]]];
    rewrite ?accept_finally_run; cbn [fst snd actions];
    (erewrite new_actions_app; [|cbn [actions]; rewrite <- ?app_assoc; reflexivity]);
    destruct Hstats as [[-> Hjoined]|(joined & key & -> & Hjoined & Hkey)];
    cbn [app]; (split; [reflexivity|]); split.
  all: intros [|[|[|[|[|[|[|]]]]]]] ? ?; simpl; intros; simplify_eq.
  all: split_and!; try done; eauto.
Qed.

(** X23.  The two subscription commands mirror each other on the roles the
    author has when the command starts.  With the announcements role,
    subscribing only replies that the author is subscribed already and
    unsubscribing asks to remove the role; without it, unsubscribing only
    replies and subscribing asks to add the role.  The confirmation follows
    the role update and is sent exactly when the update was granted. *)
Theorem subscription_commands_mirror ctx s :
  let author := member (cached_guild W (actions s)) (ctx_author ctx) in
  let add := Core (MemberAddRoles (ctx_author ctx) (Roles_announcements K)) in
  let remove := RemoveRoles (ctx_author ctx) (Roles_announcements K) in
  let reply text := CtxSend (ctx_channel ctx) (text (ctx_author ctx)) None in
  let subscribing := new_actions s (snd (subscribe_command K W ctx s)) in
  let unsubscribing := new_actions s (snd (unsubscribe_command K W ctx s)) in
  if decide (Roles_announcements K ∈ roles author) then
    subscribing = [reply AlreadySubscribed]
    ∧ unsubscribing
      = remove :: match response W (actions s) remove with
                  | None => [reply Unsubscribed]
                  | Some _ => []
                  end
  else
    unsubscribing = [reply AlreadyUnsubscribed]
    ∧ subscribing
      = add :: match response W (actions s) add with
               | None => [reply Subscribed]
               | Some _ => []
               end.
Proof.
  cbv zeta. unfold subscribe_command, unsubscribe_command. unfold_F.
  case_decide as Hrole.
  - rewrite bool_decide_true by done. cbn [negb].
    destruct (response W (actions s) (RemoveRoles _ _)); simpl;
      (split; [destruct (response _ _ _)|try destruct (response _ _ _)]);
      flatten_actions; by apply new_actions_app.
  - rewrite bool_decide_false by done. cbn [negb].
    destruct (response W (actions s) (Core _)); simpl;
      (split; [destruct (response _ _ _)|try destruct (response _ _ _)]);
      flatten_actions; by apply new_actions_app.
Qed.
End Commands.

Lemma gate_and_listener_agree_witness :
  Forall (λ a, match a with ModAlert _ _ _ _ | GetContext _ => True | _ => False end)
    (new_actions new_session
       (snd (on_message demo_constants demo_commands demo_frontend demo_accept_message
               new_session))).
Proof.
  apply (gate_and_listener_agree demo_constants demo_commands demo_frontend
           (λ _ _, true) demo_accept_message new_session).
  - reflexivity.
  - reflexivity.
  - reflexivity.
Defined.
